(** * Roadmap session controller (frontend/static/script.js)

    A shallow embedding of the client-side controller: the six module-level
    variables, the DOM nodes the handlers read back, the [alert] and [fetch]
    effects, and the string transforms used for flashcards and chat.

    Conventions of the model.
    - JavaScript strings are [string]s of 8-bit code units; numbers that the
      controller uses as indexes and counters are integers ([Z]).
    - [response.json()] yields a typed record [Data] holding the fields the
      controller reads; a request that fails (network error, unparsable body)
      is the outcome [Threw message].
    - The backend is a function from the history of requests (the newest one
      last) to an outcome, so any sequence of answers can be expressed.
    - An event handler and the continuations of the requests it awaits run as
      one step: no other user event is interleaved between them.
    - DOM nodes that are only written (step badge, title, details, progress
      bar, button enablement, guide text, note text, resource list, scroll
      position, element styles) are left out; the requests issued to fill them
      are kept in the request log. *)

From Stdlib Require Import ZArith List String Ascii Bool Lia Sorted.
Import ListNotations.

Local Open Scope string_scope.
Local Open Scope Z_scope.

(** ** String primitives of the host language *)

Module JsString.

Definition LF : ascii := ascii_of_nat 10.
Definition colon : ascii := ":"%char.

(** WhiteSpace and LineTerminator code units below 256: TAB, LF, VT, FF, CR,
    SP and NBSP.  This is both what [String.prototype.trim] strips and what
    the regular-expression class [\s] matches. *)
Definition isWhiteSpace (c : ascii) : bool :=
  let n := nat_of_ascii c in
  (Nat.eqb n 9 || Nat.eqb n 10 || Nat.eqb n 11 || Nat.eqb n 12
   || Nat.eqb n 13 || Nat.eqb n 32 || Nat.eqb n 160)%bool.

Definition isEmpty (s : string) : bool :=
  match s with EmptyString => true | String _ _ => false end.

Fixpoint trimStart (s : string) : string :=
  match s with
  | EmptyString => EmptyString
  | String c r => if isWhiteSpace c then trimStart r else s
  end.

Fixpoint trimEnd (s : string) : string :=
  match s with
  | EmptyString => EmptyString
  | String c r =>
      let r' := trimEnd r in
      if (isWhiteSpace c && isEmpty r')%bool then EmptyString else String c r'
  end.

(** [s.trim()] *)
Definition trim (s : string) : string := trimEnd (trimStart s).

(** [s.includes(c)] for a one-character needle. *)
Fixpoint includes (c : ascii) (s : string) : bool :=
  match s with
  | EmptyString => false
  | String d r => (Ascii.eqb d c || includes c r)%bool
  end.

(** [s.split(sep)] for a one-character separator: every occurrence of the
    separator cuts the string; the result is never empty. *)
Fixpoint split (sep : ascii) (s : string) : list string :=
  match s with
  | EmptyString => [EmptyString]
  | String c r =>
      if Ascii.eqb c sep then EmptyString :: split sep r
      else match split sep r with
           | p :: ps => String c p :: ps
           | [] => [String c EmptyString]
           end
  end.

(** [s.replace(/[*#]/g, '')] *)
Fixpoint removeMarks (s : string) : string :=
  match s with
  | EmptyString => EmptyString
  | String c r =>
      if (Ascii.eqb c "*"%char || Ascii.eqb c "#"%char)%bool
      then removeMarks r else String c (removeMarks r)
  end.

(** Length of the match of [\s*\n] at the head of [s].  The star is greedy:
    it first takes the whitespace character and looks for the rest of the
    pattern further on, and only when that fails does it stop and require
    the character at hand to be the closing line feed. *)
Fixpoint matchSpacesLF (s : string) : option nat :=
  match s with
  | EmptyString => None
  | String c r =>
      if isWhiteSpace c then
        match matchSpacesLF r with
        | Some n => Some (S n)
        | None => if Ascii.eqb c LF then Some 1%nat else None
        end
      else None
  end.

(** Length of the match of [\n\s*\n] at the head of [s]. *)
Definition matchBlankLines (s : string) : option nat :=
  match s with
  | EmptyString => None
  | String c r =>
      if Ascii.eqb c LF then option_map S (matchSpacesLF r) else None
  end.

(** [s.replace(/\n\s*\n/g, '\n')]: scanning left to right, a match found at
    the current position is replaced by one line feed and the scan resumes
    after it ([skip] counts the matched characters still to be passed
    over); otherwise the character is copied. *)
Fixpoint replaceBlankLines (skip : nat) (s : string) : string :=
  match s with
  | EmptyString => EmptyString
  | String c r =>
      match skip with
      | S k => replaceBlankLines k r
      | O =>
          match matchBlankLines s with
          | Some n => String LF (replaceBlankLines (Nat.pred n) r)
          | None => String c (replaceBlankLines 0 r)
          end
      end
  end.

Definition collapseBlankLines (s : string) : string := replaceBlankLines 0 s.

(** The part of [s] before its first [sep] and the part after it. *)
Fixpoint cutFirst (sep : ascii) (s : string) : option (string * string) :=
  match s with
  | EmptyString => None
  | String c r =>
      if Ascii.eqb c sep then Some (EmptyString, r)
      else match cutFirst sep r with
           | Some (a, b) => Some (String c a, b)
           | None => None
           end
  end.

End JsString.
Import JsString.

Definition nl : string := String LF EmptyString.

(** ** Data exchanged with the backend *)

Record Step := mkStep {
  number : Z;
  title : string;
  details : list string
}.

Record Question := mkQuestion {
  question : string;
  options : list (string * string)
}.

(** The object returned by [response.json()]: [success] and the optional
    [error] of every answer, and the payload fields the controller reads. *)
Record Data := mkData {
  success : bool;
  error : option string;
  d_topic : string;
  d_steps : list Step;
  completed : bool;
  d_currentStepIndex : Z;
  response : string;
  questions : list Question;
  score : Z;
  total : Z;
  percentage : Z
}.

(** What [await fetch(..)] followed by [await response.json()] comes to:
    the parsed object, or an exception carrying [error.message]. *)
Inductive Outcome :=
| Json (data : Data)
| Threw (message : string).

(** A request: its endpoint together with the JSON body that is sent. *)
Inductive Request :=
| ApiStats
| ApiStartTopic (topic persona difficulty : string)
| ApiGetGuide
| ApiGetResources (topic step : string)
| ApiNextStep
| ApiGetNote
| ApiChat (message : string)
| ApiGenerateQuiz
| ApiSubmitQuiz (answers : list (nat * string)) (quiz : option (list Question)).

Definition Backend := list Request -> Outcome.

(** ** Controller state *)

(** [roadmapData]: the start-topic answer, with [persona] and [difficulty]
    added by [startLearning]. *)
Record Roadmap := mkRoadmap {
  rm_topic : string;
  rm_steps : list Step;
  rm_persona : string;
  rm_difficulty : string
}.

Record Flashcard := mkFlashcard {
  front : string;
  back : string
}.

Inductive Role := user | assistant.

(** One [div.chat-message] of the transcript: its role class and its text. *)
Record ChatMessage := mkChatMessage {
  cm_role : Role;
  cm_text : string
}.

(** One [div.minimap-item]; its click handler closes over [mi_index]. *)
Record MinimapItem := mkMinimapItem {
  mi_index : nat;
  mi_title : string;
  mi_active : bool;
  mi_completed : bool
}.

(** The flashcard widget: the [flipped] class, the two faces and the counter
    (shown as [fc_position]/[fc_count]). *)
Record FlashcardView := mkFlashcardView {
  fc_flipped : bool;
  fc_front : string;
  fc_back : string;
  fc_position : Z;
  fc_count : Z
}.

(** The quiz panel: the rendered questions and, per question index, the
    option that carries the [selected] class. *)
Record QuizView := mkQuizView {
  qv_questions : list Question;
  qv_selected : list (nat * string)
}.

(** The quiz result dialog. *)
Record QuizResults := mkQuizResults {
  qr_score : Z;
  qr_total : Z;
  qr_percentage : Z;
  qr_pass : bool
}.

Inductive Screen := StartScreen | LearningScreen | LoadingScreen.

Record State := mkState {
  (* module-level variables *)
  currentStepIndex : Z;
  totalSteps : Z;
  roadmapData : option Roadmap;
  currentQuiz : option (list Question);
  currentFlashcards : list Flashcard;
  currentFlashcardIndex : Z;
  (* DOM *)
  screen : Screen;
  completionModal : bool;               (* true: visible *)
  quizResultsModal : option QuizResults; (* None: hidden *)
  topicInput : string;
  personaSelect : string;
  difficultySelect : string;
  chatInput : string;
  chatMessages : list ChatMessage;
  quizContent : option QuizView;        (* None: empty panel *)
  roadmapMinimap : list MinimapItem;
  flashcard : FlashcardView;
  (* effects *)
  alerts : list string;                 (* texts passed to alert, oldest first *)
  fetchLog : list Request               (* requests issued, oldest first *)
}.

(** The state right after the script is loaded. *)
Definition initialState : State :=
  mkState 0 0 None None [] 0
          StartScreen false None "" "" "" "" [] None []
          (mkFlashcardView false "" "" 0 0)
          [] [].

Section Setters.
Variable s : State.

Definition set_currentStepIndex (v : Z) : State :=
  mkState v (totalSteps s) (roadmapData s) (currentQuiz s)
    (currentFlashcards s) (currentFlashcardIndex s) (screen s)
    (completionModal s) (quizResultsModal s) (topicInput s)
    (personaSelect s) (difficultySelect s) (chatInput s) (chatMessages s)
    (quizContent s) (roadmapMinimap s) (flashcard s) (alerts s) (fetchLog s).

Definition set_totalSteps (v : Z) : State :=
  mkState (currentStepIndex s) v (roadmapData s) (currentQuiz s)
    (currentFlashcards s) (currentFlashcardIndex s) (screen s)
    (completionModal s) (quizResultsModal s) (topicInput s)
    (personaSelect s) (difficultySelect s) (chatInput s) (chatMessages s)
    (quizContent s) (roadmapMinimap s) (flashcard s) (alerts s) (fetchLog s).

Definition set_roadmapData (v : option Roadmap) : State :=
  mkState (currentStepIndex s) (totalSteps s) v (currentQuiz s)
    (currentFlashcards s) (currentFlashcardIndex s) (screen s)
    (completionModal s) (quizResultsModal s) (topicInput s)
    (personaSelect s) (difficultySelect s) (chatInput s) (chatMessages s)
    (quizContent s) (roadmapMinimap s) (flashcard s) (alerts s) (fetchLog s).

Definition set_currentQuiz (v : option (list Question)) : State :=
  mkState (currentStepIndex s) (totalSteps s) (roadmapData s) v
    (currentFlashcards s) (currentFlashcardIndex s) (screen s)
    (completionModal s) (quizResultsModal s) (topicInput s)
    (personaSelect s) (difficultySelect s) (chatInput s) (chatMessages s)
    (quizContent s) (roadmapMinimap s) (flashcard s) (alerts s) (fetchLog s).

Definition set_currentFlashcards (v : list Flashcard) : State :=
  mkState (currentStepIndex s) (totalSteps s) (roadmapData s) (currentQuiz s)
    v (currentFlashcardIndex s) (screen s)
    (completionModal s) (quizResultsModal s) (topicInput s)
    (personaSelect s) (difficultySelect s) (chatInput s) (chatMessages s)
    (quizContent s) (roadmapMinimap s) (flashcard s) (alerts s) (fetchLog s).

Definition set_currentFlashcardIndex (v : Z) : State :=
  mkState (currentStepIndex s) (totalSteps s) (roadmapData s) (currentQuiz s)
    (currentFlashcards s) v (screen s)
    (completionModal s) (quizResultsModal s) (topicInput s)
    (personaSelect s) (difficultySelect s) (chatInput s) (chatMessages s)
    (quizContent s) (roadmapMinimap s) (flashcard s) (alerts s) (fetchLog s).

Definition set_screen (v : Screen) : State :=
  mkState (currentStepIndex s) (totalSteps s) (roadmapData s) (currentQuiz s)
    (currentFlashcards s) (currentFlashcardIndex s) v
    (completionModal s) (quizResultsModal s) (topicInput s)
    (personaSelect s) (difficultySelect s) (chatInput s) (chatMessages s)
    (quizContent s) (roadmapMinimap s) (flashcard s) (alerts s) (fetchLog s).

Definition set_completionModal (v : bool) : State :=
  mkState (currentStepIndex s) (totalSteps s) (roadmapData s) (currentQuiz s)
    (currentFlashcards s) (currentFlashcardIndex s) (screen s)
    v (quizResultsModal s) (topicInput s)
    (personaSelect s) (difficultySelect s) (chatInput s) (chatMessages s)
    (quizContent s) (roadmapMinimap s) (flashcard s) (alerts s) (fetchLog s).

Definition set_quizResultsModal (v : option QuizResults) : State :=
  mkState (currentStepIndex s) (totalSteps s) (roadmapData s) (currentQuiz s)
    (currentFlashcards s) (currentFlashcardIndex s) (screen s)
    (completionModal s) v (topicInput s)
    (personaSelect s) (difficultySelect s) (chatInput s) (chatMessages s)
    (quizContent s) (roadmapMinimap s) (flashcard s) (alerts s) (fetchLog s).

Definition set_topicInput (v : string) : State :=
  mkState (currentStepIndex s) (totalSteps s) (roadmapData s) (currentQuiz s)
    (currentFlashcards s) (currentFlashcardIndex s) (screen s)
    (completionModal s) (quizResultsModal s) v
    (personaSelect s) (difficultySelect s) (chatInput s) (chatMessages s)
    (quizContent s) (roadmapMinimap s) (flashcard s) (alerts s) (fetchLog s).

Definition set_chatInput (v : string) : State :=
  mkState (currentStepIndex s) (totalSteps s) (roadmapData s) (currentQuiz s)
    (currentFlashcards s) (currentFlashcardIndex s) (screen s)
    (completionModal s) (quizResultsModal s) (topicInput s)
    (personaSelect s) (difficultySelect s) v (chatMessages s)
    (quizContent s) (roadmapMinimap s) (flashcard s) (alerts s) (fetchLog s).

Definition set_chatMessages (v : list ChatMessage) : State :=
  mkState (currentStepIndex s) (totalSteps s) (roadmapData s) (currentQuiz s)
    (currentFlashcards s) (currentFlashcardIndex s) (screen s)
    (completionModal s) (quizResultsModal s) (topicInput s)
    (personaSelect s) (difficultySelect s) (chatInput s) v
    (quizContent s) (roadmapMinimap s) (flashcard s) (alerts s) (fetchLog s).

Definition set_quizContent (v : option QuizView) : State :=
  mkState (currentStepIndex s) (totalSteps s) (roadmapData s) (currentQuiz s)
    (currentFlashcards s) (currentFlashcardIndex s) (screen s)
    (completionModal s) (quizResultsModal s) (topicInput s)
    (personaSelect s) (difficultySelect s) (chatInput s) (chatMessages s)
    v (roadmapMinimap s) (flashcard s) (alerts s) (fetchLog s).

Definition set_roadmapMinimap (v : list MinimapItem) : State :=
  mkState (currentStepIndex s) (totalSteps s) (roadmapData s) (currentQuiz s)
    (currentFlashcards s) (currentFlashcardIndex s) (screen s)
    (completionModal s) (quizResultsModal s) (topicInput s)
    (personaSelect s) (difficultySelect s) (chatInput s) (chatMessages s)
    (quizContent s) v (flashcard s) (alerts s) (fetchLog s).

Definition set_flashcard (v : FlashcardView) : State :=
  mkState (currentStepIndex s) (totalSteps s) (roadmapData s) (currentQuiz s)
    (currentFlashcards s) (currentFlashcardIndex s) (screen s)
    (completionModal s) (quizResultsModal s) (topicInput s)
    (personaSelect s) (difficultySelect s) (chatInput s) (chatMessages s)
    (quizContent s) (roadmapMinimap s) v (alerts s) (fetchLog s).

Definition set_alerts (v : list string) : State :=
  mkState (currentStepIndex s) (totalSteps s) (roadmapData s) (currentQuiz s)
    (currentFlashcards s) (currentFlashcardIndex s) (screen s)
    (completionModal s) (quizResultsModal s) (topicInput s)
    (personaSelect s) (difficultySelect s) (chatInput s) (chatMessages s)
    (quizContent s) (roadmapMinimap s) (flashcard s) v (fetchLog s).

Definition set_fetchLog (v : list Request) : State :=
  mkState (currentStepIndex s) (totalSteps s) (roadmapData s) (currentQuiz s)
    (currentFlashcards s) (currentFlashcardIndex s) (screen s)
    (completionModal s) (quizResultsModal s) (topicInput s)
    (personaSelect s) (difficultySelect s) (chatInput s) (chatMessages s)
    (quizContent s) (roadmapMinimap s) (flashcard s) (alerts s) v.

End Setters.

(** ** Effects: a state monad with exceptions *)

Inductive Completion (A : Type) :=
| Normal (a : A)
| Abrupt (message : string).
Arguments Normal {A} a.
Arguments Abrupt {A} message.

Definition Js (A : Type) := State -> Completion A * State.

Definition ret {A} (a : A) : Js A := fun s => (Normal a, s).

Definition bind {A B} (m : Js A) (k : A -> Js B) : Js B :=
  fun s =>
    match m s with
    | (Normal a, s') => k a s'
    | (Abrupt e, s') => (Abrupt e, s')
    end.

Definition throw {A} (e : string) : Js A := fun s => (Abrupt e, s).

(** [try { m } catch (error) { h error.message }] *)
Definition tryCatch {A} (m : Js A) (h : string -> Js A) : Js A :=
  fun s =>
    match m s with
    | (Normal a, s') => (Normal a, s')
    | (Abrupt e, s') => h e s'
    end.

Definition get : Js State := fun s => (Normal s, s).
Definition modify (f : State -> State) : Js unit := fun s => (Normal tt, f s).

(** A call of an async function whose promise is dropped: it has its effects,
    and a rejection reaches nobody. *)
Definition detached (m : Js unit) : Js unit := fun s => (Normal tt, snd (m s)).

Definition exec {A} (m : Js A) (s : State) : State := snd (m s).

Declare Scope js_scope.
Delimit Scope js_scope with js.
Notation "x <- m ;; k" := (bind m (fun x => k))
  (at level 61, m at next level, right associativity) : js_scope.
Notation "m ;; k" := (bind m (fun _ => k))
  (at level 61, right associativity) : js_scope.
Local Open Scope js_scope.

(** ** Small helpers of the host language *)

(** [arr[i]]: [undefined] outside [0 .. arr.length-1]. *)
Definition js_index {A} (l : list A) (i : Z) : option A :=
  if i <? 0 then None else nth_error l (Z.to_nat i).

(** [v || d] on a possibly missing string: the empty string is falsy. *)
Definition orElse (v : option string) (d : string) : string :=
  match v with
  | Some (String c r) => String c r
  | _ => d
  end.

(** Message of the TypeError raised by reading a property of [undefined]. *)
Definition undefinedProperty (name : string) : string :=
  "Cannot read properties of undefined (reading '" ++ name ++ "')".

(** ** Flashcard extraction (the body of the [forEach] in generateFlashcards) *)

Definition cardOfDetail (detail : string) : option Flashcard :=
  if includes colon detail then
    match split colon detail with
    | term :: definition :: _ => Some (mkFlashcard (trim term) (trim definition))
    | _ => None
    end
  else if Z.of_nat (String.length detail) >? 20 then
    Some (mkFlashcard "Key Concept" (trim detail))
  else None.

Fixpoint extractFlashcards (details : list string) : list Flashcard :=
  match details with
  | [] => []
  | detail :: rest =>
      match cardOfDetail detail with
      | Some card => card :: extractFlashcards rest
      | None => extractFlashcards rest
      end
  end.

(** The rule as the specification words it: a line with a colon is cut at
    its first colon, the card's back being everything after it. *)
Definition specCardOfDetail (detail : string) : option Flashcard :=
  match cutFirst colon detail with
  | Some (l, r) => Some (mkFlashcard (trim l) (trim r))
  | None =>
      if Z.of_nat (String.length detail) >? 20 then
        Some (mkFlashcard "Key Concept" (trim detail))
      else None
  end.

Fixpoint specExtractFlashcards (details : list string) : list Flashcard :=
  match details with
  | [] => []
  | detail :: rest =>
      match specCardOfDetail detail with
      | Some card => card :: specExtractFlashcards rest
      | None => specExtractFlashcards rest
      end
  end.

(** ** Chat text shown in the transcript (the cleaning in addChatMessage) *)

Definition cleanMessage (message : string) : string :=
  trim (collapseBlankLines (removeMarks message)).

(** The display transform as the specification words it: marks removed and
    blank lines collapsed, nothing else. *)
Definition specCleanMessage (message : string) : string :=
  collapseBlankLines (removeMarks message).

Definition chatFallback : string :=
  "Sorry, I encountered an error. Please try again.".

(** ** The handlers *)

Fixpoint minimapItems (cursor : Z) (index : nat) (steps : list Step)
  : list MinimapItem :=
  match steps with
  | [] => []
  | step :: rest =>
      mkMinimapItem index (title step)
        (Z.of_nat index =? cursor) (Z.of_nat index <? cursor)
      :: minimapItems cursor (S index) rest
  end.

Definition alert (text : string) : Js unit :=
  modify (fun s => set_alerts s (alerts s ++ [text])%list).

Definition showScreen (id : Screen) : Js unit :=
  modify (fun s => set_screen s id).

Definition showLoading : Js unit :=
  modify (fun s => set_screen s LoadingScreen).

Definition showCompletionModal : Js unit :=
  modify (fun s => set_completionModal s true).

Definition addChatMessage (role : Role) (message : string) : Js unit :=
  modify (fun s =>
    set_chatMessages s
      (chatMessages s ++ [mkChatMessage role (cleanMessage message)])%list).

Definition displayFlashcard : Js unit :=
  modify (fun s =>
    let v := flashcard s in
    set_flashcard s
      (mkFlashcardView false (fc_front v) (fc_back v) (fc_position v) (fc_count v)));;
  s <- get;;
  match currentFlashcards s with
  | [] =>
      modify (fun s =>
        set_flashcard s
          (mkFlashcardView (fc_flipped (flashcard s))
             "No flashcards for this step yet." "" 0 0))
  | _ :: _ =>
      match js_index (currentFlashcards s) (currentFlashcardIndex s) with
      | None => throw (undefinedProperty "front")
      | Some card =>
          modify (fun s =>
            set_flashcard s
              (mkFlashcardView (fc_flipped (flashcard s))
                 (front card) (back card)
                 (currentFlashcardIndex s + 1)
                 (Z.of_nat (List.length (currentFlashcards s)))))
      end
  end.

Definition generateFlashcards : Js unit :=
  s <- get;;
  match roadmapData s with
  | None => ret tt
  | Some r =>
      match js_index (rm_steps r) (currentStepIndex s) with
      | None => ret tt
      | Some step =>
          modify (fun s => set_currentFlashcards s (extractFlashcards (details step)));;
          modify (fun s => set_currentFlashcardIndex s 0);;
          displayFlashcard
      end
  end.

(** JavaScript's [%] truncates towards zero: it is [Z.rem]. *)
Definition nextFlashcard : Js unit :=
  s <- get;;
  match currentFlashcards s with
  | [] => ret tt
  | _ :: _ =>
      modify (fun s =>
        set_currentFlashcardIndex s
          (Z.rem (currentFlashcardIndex s + 1)
                 (Z.of_nat (List.length (currentFlashcards s)))));;
      displayFlashcard
  end.

Definition previousFlashcard : Js unit :=
  s <- get;;
  match currentFlashcards s with
  | [] => ret tt
  | _ :: _ =>
      modify (fun s =>
        set_currentFlashcardIndex s
          (Z.rem (currentFlashcardIndex s - 1
                  + Z.of_nat (List.length (currentFlashcards s)))
                 (Z.of_nat (List.length (currentFlashcards s)))));;
      displayFlashcard
  end.

Definition updateRoadmapMinimap : Js unit :=
  s <- get;;
  match roadmapData s with
  | None => ret tt
  | Some r =>
      modify (fun s =>
        set_roadmapMinimap s (minimapItems (currentStepIndex s) 0 (rm_steps r)))
  end.

Definition displayQuiz (qs : list Question) : Js unit :=
  modify (fun s => set_quizContent s (Some (mkQuizView qs []))).

Definition displayQuizResults (data : Data) : Js unit :=
  modify (fun s =>
    set_quizResultsModal s
      (Some (mkQuizResults (score data) (total data) (percentage data)
               (percentage data >=? 70)))).

Section Handlers.
Variable backend : Backend.

(** [await fetch(..)] then [await response.json()]: the request is logged
    and the backend's outcome for the history so far is delivered. *)
Definition fetchJson (req : Request) : Js Data :=
  fun s =>
    let log := (fetchLog s ++ [req])%list in
    match backend log with
    | Json d => (Normal d, set_fetchLog s log)
    | Threw e => (Abrupt e, set_fetchLog s log)
    end.

(** The three loaders catch their own failures; what they display is not
    part of the state. *)
Definition loadStats : Js unit :=
  tryCatch (_ <- fetchJson ApiStats;; ret tt) (fun _ => ret tt).

Definition loadGuide : Js unit :=
  tryCatch (_ <- fetchJson ApiGetGuide;; ret tt) (fun _ => ret tt).

Definition loadNote : Js unit :=
  tryCatch (_ <- fetchJson ApiGetNote;; ret tt) (fun _ => ret tt).

Definition fetchRelatedResources : Js unit :=
  s <- get;;
  match roadmapData s with
  | None => ret tt
  | Some r =>
      match js_index (rm_steps r) (currentStepIndex s) with
      | None => throw (undefinedProperty "title")
      | Some step =>
          tryCatch
            (_ <- fetchJson (ApiGetResources (rm_topic r) (title step));; ret tt)
            (fun _ => ret tt)
      end
  end.

Definition updateRightSidebar : Js unit :=
  updateRoadmapMinimap;;
  generateFlashcards;;
  detached fetchRelatedResources.

Definition updateLearningScreen : Js unit :=
  s <- get;;
  match roadmapData s with
  | None => ret tt
  | Some r =>
      if currentStepIndex s >=? totalSteps s then ret tt
      else
        match js_index (rm_steps r) (currentStepIndex s) with
        | None => throw (undefinedProperty "number")
        | Some _ =>
            loadGuide;;
            loadNote;;
            updateRightSidebar;;
            modify (fun s => set_chatMessages s [])
        end
  end.

Definition startLearning : Js unit :=
  s <- get;;
  let topic := trim (topicInput s) in
  let persona := personaSelect s in
  let difficulty := difficultySelect s in
  if isEmpty topic then ret tt
  else
    showLoading;;
    tryCatch
      (data <- fetchJson (ApiStartTopic topic persona difficulty);;
       if success data then
         modify (fun s =>
           set_roadmapData s
             (Some (mkRoadmap (d_topic data) (d_steps data) persona difficulty)));;
         modify (fun s => set_totalSteps s (Z.of_nat (List.length (d_steps data))));;
         modify (fun s => set_currentStepIndex s 0);;
         showScreen LearningScreen;;
         updateLearningScreen
       else
         alert ("Error: " ++ orElse (error data) "Failed to generate roadmap");;
         showScreen StartScreen)
      (fun message =>
         alert ("Error: " ++ message);;
         showScreen StartScreen).

Definition nextStep : Js unit :=
  s <- get;;
  if currentStepIndex s >=? totalSteps s - 1 then showCompletionModal
  else
    tryCatch
      (data <- fetchJson ApiNextStep;;
       if success data then
         if completed data then showCompletionModal
         else
           modify (fun s => set_currentStepIndex s (d_currentStepIndex data));;
           updateLearningScreen
       else ret tt)
      (fun message => alert ("Error: " ++ message)).

Definition previousStep : Js unit :=
  s <- get;;
  if currentStepIndex s =? 0 then ret tt
  else
    modify (fun s => set_currentStepIndex s (currentStepIndex s - 1));;
    detached updateLearningScreen.

(** A click on the [item]-th entry of the minimap, if there is one. *)
Definition minimapClick (item : nat) : Js unit :=
  s <- get;;
  match nth_error (roadmapMinimap s) item with
  | None => ret tt
  | Some it =>
      modify (fun s => set_currentStepIndex s (Z.of_nat (mi_index it)));;
      detached updateLearningScreen
  end.

Definition sendChat : Js unit :=
  s <- get;;
  let message := trim (chatInput s) in
  if isEmpty message then ret tt
  else
    addChatMessage user message;;
    modify (fun s => set_chatInput s "");;
    tryCatch
      (data <- fetchJson (ApiChat message);;
       if success data then addChatMessage assistant (response data)
       else addChatMessage assistant chatFallback)
      (fun e => addChatMessage assistant ("Error: " ++ e)).

Definition generateQuiz : Js unit :=
  tryCatch
    (data <- fetchJson ApiGenerateQuiz;;
     if success data then
       modify (fun s => set_currentQuiz s (Some (questions data)));;
       displayQuiz (questions data)
     else alert ("Error generating quiz: " ++ orElse (error data) "Unknown error"))
    (fun message => alert ("Error: " ++ message)).

Definition submitQuiz : Js unit :=
  s <- get;;
  let answers :=
    match quizContent s with
    | Some v => qv_selected v
    | None => []
    end in
  tryCatch
    (data <- fetchJson (ApiSubmitQuiz answers (currentQuiz s));;
     if success data then displayQuizResults data else ret tt)
    (fun message => alert ("Error: " ++ message)).

Definition resetToStart : Js unit :=
  showScreen StartScreen;;
  modify (fun s => set_topicInput s "");;
  modify (fun s => set_currentStepIndex s 0);;
  modify (fun s => set_roadmapData s None);;
  modify (fun s => set_completionModal s false);;
  modify (fun s => set_chatMessages s []);;
  modify (fun s => set_quizContent s None);;
  detached loadStats.

End Handlers.

(** ** Vocabulary of the statements *)

(** [keeps proj m]: running [m] leaves the part [proj] of the state as it
    was, whether [m] completes normally or throws. *)
Definition keeps {T : Type} (proj : State -> T) {A} (m : Js A) : Prop :=
  forall s, proj (snd (m s)) = proj s.

(** What refreshing the learning screen never touches. *)
Definition sessionPart (s : State) :=
  (currentStepIndex s, totalSteps s, roadmapData s, currentQuiz s,
   quizContent s, quizResultsModal s, completionModal s, screen s,
   topicInput s, alerts s).

(** The stored quiz and the quiz panel. *)
Definition quizPart (s : State) := (currentQuiz s, quizContent s).

(** advanceStep is nextStep, retreatStep is previousStep, jumpToStep is a
    click on a minimap entry. *)
Inductive CursorOp :=
| AdvanceStep
| RetreatStep
| JumpToStep (item : nat).

Definition runOp (backend : Backend) (op : CursorOp) (s : State) : State :=
  match op with
  | AdvanceStep => exec (nextStep backend) s
  | RetreatStep => exec (previousStep backend) s
  | JumpToStep item => exec (minimapClick backend item) s
  end.

Fixpoint runOps (backend : Backend) (ops : list CursorOp) (s : State) : State :=
  match ops with
  | [] => s
  | op :: rest => runOps backend rest (runOp backend op s)
  end.

(** The cursor invariant of the data model. *)
Definition cursorInRange (s : State) : bool :=
  match roadmapData s with
  | None => true
  | Some r =>
      (0 <=? currentStepIndex s)
      && (currentStepIndex s <? Z.of_nat (List.length (rm_steps r)))
  end.

(** A session on roadmap [r] as startLearning sets it up: [totalSteps] is
    the number of steps and the minimap shows entries of [r] only. *)
Definition sessionOn (r : Roadmap) (s : State) : Prop :=
  roadmapData s = Some r
  /\ totalSteps s = Z.of_nat (List.length (rm_steps r))
  /\ Forall (fun it => (mi_index it < List.length (rm_steps r))%nat)
       (roadmapMinimap s).

(** ** Concrete sessions *)

Definition always (o : Outcome) : Backend := fun _ => o.

Definition demoSteps : list Step :=
  [mkStep 1 "Ownership"
     ["Term: Definition"; "short"; "A moderately long descriptive sentence."];
   mkStep 2 "Borrowing" ["Time: 10:30"];
   mkStep 3 "Lifetimes" []].

Definition demoQuestion : Question :=
  mkQuestion "Who owns a moved value?" [("A", "The caller"); ("B", "The callee")].

(** One answer carrying every payload field; the cursor it reports is 1. *)
Definition demoData : Data :=
  mkData true None "Rust" demoSteps false 1 "Sure." [demoQuestion] 2 3 67.

(** A successful next-step answer whose index lies outside the roadmap. *)
Definition farData : Data :=
  mkData true None "Rust" demoSteps false 7 "" [] 0 0 0.

(** A successful next-step answer marked completed. *)
Definition completedData : Data :=
  mkData true None "Rust" demoSteps true 2 "" [] 0 0 0.

(** A successful start-topic answer with no step at all. *)
Definition emptyData : Data :=
  mkData true None "Go" [] false 0 "" [] 0 0 0.

(** A failure reported by the backend. *)
Definition failedData : Data :=
  mkData false (Some "Session expired") "" [] false 0 "" [] 0 0 0.

Definition demoRoadmap : Roadmap := mkRoadmap "Rust" demoSteps "" "".

(** The session after typing a topic and starting. *)
Definition demoSession : State :=
  exec (startLearning (always (Json demoData)))
    (set_topicInput initialState "Rust").

(** The same session once a quiz has been generated. *)
Definition demoQuizSession : State :=
  exec (generateQuiz (always (Json demoData))) demoSession.

(** ** Further listeners of the learning screen *)

(** The click listener of the flashcard: [classList.toggle('flipped')]. *)
Definition flipFlashcard : Js unit :=
  modify (fun s =>
    let v := flashcard s in
    set_flashcard s
      (mkFlashcardView (negb (fc_flipped v)) (fc_front v) (fc_back v)
         (fc_position v) (fc_count v))).

(** [n] clicks on the next-card button. *)
Fixpoint nextFlashcards (n : nat) (s : State) : State :=
  match n with
  | O => s
  | S k => nextFlashcards k (exec nextFlashcard s)
  end.

(** The panel has an option element for question [q] with key [key]. *)
Definition hasOption (qs : list Question) (q : nat) (key : string) : bool :=
  match nth_error qs q with
  | Some qu => existsb (fun kv => String.eqb (fst kv) key) (options qu)
  | None => false
  end.

(** Every option of question [q] loses the [selected] class. *)
Definition deselect (q : nat) (sel : list (nat * string)) : list (nat * string) :=
  filter (fun e => negb (Nat.eqb (fst e) q)) sel.

(** The clicked option gains the class.  The selection is kept in the order
    in which submitQuiz's [answers] object lists it: by question index. *)
Fixpoint addSelected (q : nat) (key : string) (sel : list (nat * string))
  : list (nat * string) :=
  match sel with
  | [] => [(q, key)]
  | e :: rest =>
      if Nat.ltb q (fst e) then (q, key) :: e :: rest
      else e :: addSelected q key rest
  end.

(** The click listener that displayQuiz puts on each [div.quiz-option]:
    a click on the option [key] of question [q], if the panel shows one. *)
Definition clickQuizOption (q : nat) (key : string) : Js unit :=
  modify (fun s =>
    match quizContent s with
    | None => s
    | Some v =>
        if hasOption (qv_questions v) q key then
          set_quizContent s
            (Some (mkQuizView (qv_questions v)
                     (addSelected q key (deselect q (qv_selected v)))))
        else s
    end).

Fixpoint clickQuizOptions (clicks : list (nat * string)) (s : State) : State :=
  match clicks with
  | [] => s
  | (q, key) :: rest => clickQuizOptions rest (exec (clickQuizOption q key) s)
  end.

(** The answer that submitQuiz reads for question [q]. *)
Definition answerOf (q : nat) (sel : list (nat * string)) : option string :=
  option_map snd (find (fun e => Nat.eqb (fst e) q) sel).

(** A selection as the panel can hold it: question indexes strictly
    ascending (so at most one option per question), each entry an option
    that the panel shows. *)
Definition selectionOk (qs : list Question) (sel : list (nat * string)) : Prop :=
  StronglySorted (fun a b => (fst a < fst b)%nat) sel
  /\ Forall (fun e => hasOption qs (fst e) (snd e) = true) sel.

(** ** The events of the learning application *)

(** What the user can do: fill the topic box and start, the three step
    controls, the home and new-topic buttons, type and send a chat message,
    the quiz controls and the flashcard controls. *)
Inductive UserEvent :=
| StartClick (topic : string)
| NextClick
| PrevClick
| MinimapItemClick (item : nat)
| HomeClick
| ChatSend (text : string)
| GenerateQuizClick
| SubmitQuizClick
| QuizOptionClick (q : nat) (key : string)
| NextCardClick
| PrevCardClick
| FlashcardClick.

Definition handle (backend : Backend) (e : UserEvent) (s : State) : State :=
  match e with
  | StartClick topic => exec (startLearning backend) (set_topicInput s topic)
  | NextClick => exec (nextStep backend) s
  | PrevClick => exec (previousStep backend) s
  | MinimapItemClick item => exec (minimapClick backend item) s
  | HomeClick => exec (resetToStart backend) s
  | ChatSend text => exec (sendChat backend) (set_chatInput s text)
  | GenerateQuizClick => exec (generateQuiz backend) s
  | SubmitQuizClick => exec (submitQuiz backend) s
  | QuizOptionClick q key => exec (clickQuizOption q key) s
  | NextCardClick => exec nextFlashcard s
  | PrevCardClick => exec previousFlashcard s
  | FlashcardClick => exec flipFlashcard s
  end.

Fixpoint handleAll (backend : Backend) (events : list UserEvent) (s : State)
  : State :=
  match events with
  | [] => s
  | e :: rest => handleAll backend rest (handle backend e s)
  end.

(** The loaded roadmap and its recorded length. *)
Definition roadmapPart (s : State) := (roadmapData s, totalSteps s).

(** The flashcards and the pagination index. *)
Definition cardsPart (s : State) := (currentFlashcards s, currentFlashcardIndex s).

(** [totalSteps] is the length of the loaded roadmap. *)
Definition lengthRecorded (s : State) : Prop :=
  forall r, roadmapData s = Some r ->
            totalSteps s = Z.of_nat (List.length (rm_steps r)).

(** The pagination index designates one of the cards, when there are any. *)
Definition cardInRange (s : State) : Prop :=
  currentFlashcards s <> [] ->
  0 <= currentFlashcardIndex s < Z.of_nat (List.length (currentFlashcards s)).

(** A shown quiz panel shows the stored quiz, with a well-formed selection. *)
Definition panelShowsQuiz (s : State) : Prop :=
  forall v, quizContent s = Some v ->
            currentQuiz s = Some (qv_questions v)
            /\ selectionOk (qv_questions v) (qv_selected v).

(** [preserves P m]: running [m] from a state with [P] ends in one with [P]. *)
Definition preserves (P : State -> Prop) {A} (m : Js A) : Prop :=
  forall s, P s -> P (snd (m s)).

(** How the handler of an event completes. *)
Definition handleOutcome (backend : Backend) (e : UserEvent) (s : State)
  : Completion unit :=
  match e with
  | StartClick topic => fst (startLearning backend (set_topicInput s topic))
  | NextClick => fst (nextStep backend s)
  | PrevClick => fst (previousStep backend s)
  | MinimapItemClick item => fst (minimapClick backend item s)
  | HomeClick => fst (resetToStart backend s)
  | ChatSend text => fst (sendChat backend (set_chatInput s text))
  | GenerateQuizClick => fst (generateQuiz backend s)
  | SubmitQuizClick => fst (submitQuiz backend s)
  | QuizOptionClick q key => fst (clickQuizOption q key s)
  | NextCardClick => fst (nextFlashcard s)
  | PrevCardClick => fst (previousFlashcard s)
  | FlashcardClick => fst (flipFlashcard s)
  end.

(** [neverThrows m]: [m] completes normally from every state. *)
Definition neverThrows {A} (m : Js A) : Prop :=
  forall s, exists a, fst (m s) = Normal a.

(** ** Mobile sidebars and swipe gestures *)

(** The [open] class of the two sidebars, the [active] class of the overlay
    and the two module-level touch coordinates. *)
Record Sidebars := mkSidebars {
  leftOpen : bool;
  rightOpen : bool;
  overlayActive : bool;
  touchStartX : Z;
  touchEndX : Z
}.

Inductive Side := LeftSidebar | RightSidebar.
Inductive Direction := rtl | ltr.

Definition closeSide (side : Side) (u : Sidebars) : Sidebars :=
  match side with
  | LeftSidebar =>
      mkSidebars false (rightOpen u) false (touchStartX u) (touchEndX u)
  | RightSidebar =>
      mkSidebars (leftOpen u) false false (touchStartX u) (touchEndX u)
  end.

Definition handleGesture (sidebar : Side) (direction : Direction) (u : Sidebars)
  : Sidebars :=
  let swipeDistance := touchEndX u - touchStartX u in
  match direction with
  | rtl => if swipeDistance <? -50 then closeSide sidebar u else u
  | ltr => if swipeDistance >? 50 then closeSide sidebar u else u
  end.

Inductive SidebarEvent :=
| ToggleLeftClick
| ToggleRightClick
| OverlayClick
| TouchStart (side : Side) (screenX : Z)
| TouchEnd (side : Side) (screenX : Z).

Definition sidebarStep (e : SidebarEvent) (u : Sidebars) : Sidebars :=
  match e with
  | ToggleLeftClick =>
      mkSidebars (negb (leftOpen u)) false (negb (overlayActive u))
        (touchStartX u) (touchEndX u)
  | ToggleRightClick =>
      mkSidebars false (negb (rightOpen u)) (negb (overlayActive u))
        (touchStartX u) (touchEndX u)
  | OverlayClick =>
      mkSidebars false false false (touchStartX u) (touchEndX u)
  | TouchStart _ x =>
      mkSidebars (leftOpen u) (rightOpen u) (overlayActive u) x (touchEndX u)
  | TouchEnd side x =>
      let u' :=
        mkSidebars (leftOpen u) (rightOpen u) (overlayActive u)
          (touchStartX u) x in
      match side with
      | LeftSidebar => handleGesture LeftSidebar rtl u'
      | RightSidebar => handleGesture RightSidebar ltr u'
      end
  end.

Fixpoint sidebarRun (events : list SidebarEvent) (u : Sidebars) : Sidebars :=
  match events with
  | [] => u
  | e :: rest => sidebarRun rest (sidebarStep e u)
  end.

(** ** Further vocabulary *)

(** A line feed occurs in the whitespace run at the head of [s]. *)
Fixpoint lfInRun (s : string) : bool :=
  match s with
  | EmptyString => false
  | String c r => (isWhiteSpace c && (Ascii.eqb c LF || lfInRun r))%bool
  end.

(** No position of [s] starts a match of [\n\s*\n]. *)
Fixpoint noBlankRun (s : string) : bool :=
  match s with
  | EmptyString => true
  | String c r =>
      (match matchBlankLines s with Some _ => false | None => true end
       && noBlankRun r)%bool
  end.

Definition startsWithSpace (s : string) : bool :=
  match s with
  | EmptyString => false
  | String c _ => isWhiteSpace c
  end.

Fixpoint endsWithSpace (s : string) : bool :=
  match s with
  | EmptyString => false
  | String c EmptyString => isWhiteSpace c
  | String _ r => endsWithSpace r
  end.

(** The lines of [details] that yield a card. *)
Definition yieldsCard (detail : string) : bool :=
  (includes colon detail || (Z.of_nat (String.length detail) >? 20))%bool.


(** ** Further concrete inputs *)

(** A successful next-step answer with a negative index. *)
Definition negativeData : Data :=
  mkData true None "Rust" demoSteps false (-1) "" [] 0 0 0.

(** The left sidebar open on a narrow screen. *)
Definition demoSidebars : Sidebars := mkSidebars true false true 0 0.

(** * Properties *)

(** ** Strings *)

Section StringFacts.

Lemma includes_trimStart c s :
  includes c (trimStart s) = true -> includes c s = true.
Proof.
  induction s as [|d r IH]; simpl; auto.
  destruct (isWhiteSpace d); simpl; intro H.
  - rewrite (IH H). apply orb_true_r.
  - exact H.
Qed.

Lemma includes_trimEnd c s :
  includes c (trimEnd s) = true -> includes c s = true.
Proof.
  induction s as [|d r IH]; simpl; auto.
  destruct (isWhiteSpace d && isEmpty (trimEnd r))%bool; simpl.
  - discriminate.
  - intro H. apply orb_true_iff in H. apply orb_true_iff.
    destruct H; [left | right]; auto.
Qed.

Lemma includes_trim c s : includes c (trim s) = true -> includes c s = true.
Proof.
  unfold trim. intro H. apply includes_trimStart, includes_trimEnd, H.
Qed.

Lemma matchBlankLines_head d r n :
  matchBlankLines (String d r) = Some n -> d = LF.
Proof.
  simpl. destruct (Ascii.eqb_spec d LF); [auto | discriminate].
Qed.

Lemma includes_replaceBlankLines c s :
  forall skip,
    includes c (replaceBlankLines skip s) = true -> includes c s = true.
Proof.
  induction s as [|d r IH]; intros skip; [simpl; auto|].
  destruct skip as [|k].
  - cbn [replaceBlankLines].
    destruct (matchBlankLines (String d r)) as [n|] eqn:E.
    + apply matchBlankLines_head in E. subst d.
      cbn [includes]. intro H. apply orb_true_iff in H. apply orb_true_iff.
      destruct H; [left | right]; eauto.
    + cbn [includes]. intro H. apply orb_true_iff in H. apply orb_true_iff.
      destruct H; [left | right]; eauto.
  - cbn [replaceBlankLines includes]. intro H.
    rewrite (IH _ H). apply orb_true_r.
Qed.

Lemma removeMarks_no_star s : includes "*"%char (removeMarks s) = false.
Proof.
  induction s as [|d r IH]; simpl; auto.
  destruct (Ascii.eqb_spec d "*"%char); simpl; auto.
  destruct (Ascii.eqb_spec d "#"%char); simpl; auto.
  destruct (Ascii.eqb_spec d "*"%char); simpl; [contradiction | auto].
Qed.

Lemma removeMarks_no_hash s : includes "#"%char (removeMarks s) = false.
Proof.
  induction s as [|d r IH]; simpl; auto.
  destruct (Ascii.eqb_spec d "*"%char); simpl; auto.
  destruct (Ascii.eqb_spec d "#"%char); simpl; auto.
  destruct (Ascii.eqb_spec d "#"%char); simpl; [contradiction | auto].
Qed.

(** The text put in the transcript carries no mark. *)
Lemma cleanMessage_no_marks m :
  includes "*"%char (cleanMessage m) = false
  /\ includes "#"%char (cleanMessage m) = false.
Proof.
  unfold cleanMessage, collapseBlankLines. split.
  - destruct (includes "*"%char _) eqn:E; auto.
    apply includes_trim, includes_replaceBlankLines in E.
    now rewrite removeMarks_no_star in E.
  - destruct (includes "#"%char _) eqn:E; auto.
    apply includes_trim, includes_replaceBlankLines in E.
    now rewrite removeMarks_no_hash in E.
Qed.

(** [split] agrees with a cut at the first separator followed by a split
    of what comes after it. *)
Lemma split_cutFirst sep s :
  match cutFirst sep s with
  | Some (a, b) => split sep s = a :: split sep b
  | None => split sep s = [s]
  end.
Proof.
  induction s as [|d r IH]; simpl; auto.
  destruct (Ascii.eqb d sep); auto.
  destruct (cutFirst sep r) as [[a b]|]; rewrite IH; reflexivity.
Qed.

Lemma includes_cutFirst sep s :
  includes sep s = match cutFirst sep s with Some _ => true | None => false end.
Proof.
  induction s as [|d r IH]; simpl; auto.
  destruct (Ascii.eqb d sep); simpl; auto.
  rewrite IH. destruct (cutFirst sep r) as [[a b]|]; reflexivity.
Qed.

Lemma split_nonempty sep s : split sep s <> [].
Proof.
  pose proof (split_cutFirst sep s) as H.
  destruct (cutFirst sep s) as [[a b]|]; rewrite H; discriminate.
Qed.

End StringFacts.

(** ** Flashcard extraction *)

Section FlashcardFacts.

(** A line with a colon always has a second piece: the destructuring in
    generateFlashcards never binds [definition] to [undefined]. *)
Lemma cardOfDetail_colon detail :
  includes colon detail = true ->
  exists term definition rest,
    split colon detail = term :: definition :: rest
    /\ cardOfDetail detail = Some (mkFlashcard (trim term) (trim definition)).
Proof.
  intro H. unfold cardOfDetail. rewrite H.
  pose proof (split_cutFirst colon detail) as S.
  rewrite includes_cutFirst in H.
  destruct (cutFirst colon detail) as [[a b]|]; [|discriminate].
  pose proof (split_nonempty colon b) as N.
  destruct (split colon b) as [|p ps] eqn:E; [contradiction|].
  rewrite S. eauto.
Qed.

(** On a line whose text after the first colon has no further colon the
    code and the rule of the specification produce the same card. *)
Lemma cardOfDetail_one_colon detail l r :
  cutFirst colon detail = Some (l, r) ->
  includes colon r = false ->
  cardOfDetail detail = specCardOfDetail detail.
Proof.
  intros C N. unfold cardOfDetail, specCardOfDetail.
  rewrite includes_cutFirst, C.
  pose proof (split_cutFirst colon detail) as S. rewrite C in S.
  pose proof (split_cutFirst colon r) as S'.
  rewrite includes_cutFirst in N.
  destruct (cutFirst colon r) as [[a b]|]; [discriminate|].
  rewrite S, S'. reflexivity.
Qed.

Lemma cardOfDetail_no_colon detail :
  includes colon detail = false ->
  cardOfDetail detail = specCardOfDetail detail.
Proof.
  intros N. unfold cardOfDetail, specCardOfDetail. rewrite N.
  rewrite includes_cutFirst in N.
  destruct (cutFirst colon detail) as [[a b]|]; [discriminate | reflexivity].
Qed.

(** The worked example of the specification. *)
Example extractFlashcards_example :
  extractFlashcards
    ["Term: Definition"; "short"; "A moderately long descriptive sentence."]
  = [mkFlashcard "Term" "Definition";
     mkFlashcard "Key Concept" "A moderately long descriptive sentence."].
Proof. reflexivity. Qed.

(** C2.  Flashcard extraction is claimed to cut a line at its first colon
    and to put everything after it on the back of the card.  The code
    splits at every colon and keeps the first two pieces: on the line
    "Time: 10:30" the back is "10", where the claimed rule gives
    "10:30". *)
Theorem extractFlashcards_second_colon_truncates :
  extractFlashcards ["Time: 10:30"] = [mkFlashcard "Time" "10"]
  /\ specExtractFlashcards ["Time: 10:30"] = [mkFlashcard "Time" "10:30"].
Proof. split; reflexivity. Qed.

End FlashcardFacts.

(** ** Flashcard pagination *)

Ltac js_unfold :=
  unfold exec, bind, ret, modify, get, tryCatch, detached, throw in *.

Section PaginationFacts.

Lemma displayFlashcard_keeps_cards s :
  currentFlashcards (exec displayFlashcard s) = currentFlashcards s
  /\ currentFlashcardIndex (exec displayFlashcard s) = currentFlashcardIndex s
  /\ fc_flipped (flashcard (exec displayFlashcard s)) = false.
Proof.
  unfold displayFlashcard. js_unfold. cbn.
  destruct (currentFlashcards s) as [|c cs] eqn:E; cbn; auto.
  destruct (js_index (c :: cs) (currentFlashcardIndex s)); cbn; auto.
Qed.

Lemma generateFlashcards_recomputes s r step :
  roadmapData s = Some r ->
  js_index (rm_steps r) (currentStepIndex s) = Some step ->
  let s' := exec generateFlashcards s in
  currentFlashcards s' = extractFlashcards (details step)
  /\ currentFlashcardIndex s' = 0
  /\ fc_flipped (flashcard s') = false
  /\ match extractFlashcards (details step) with
     | [] => fc_count (flashcard s') = 0
     | card :: _ =>
         fc_front (flashcard s') = front card
         /\ fc_back (flashcard s') = back card
         /\ fc_position (flashcard s') = 1
     end.
Proof.
  intros R I. unfold generateFlashcards, displayFlashcard. js_unfold.
  cbn. rewrite R, I. cbn.
  destruct (extractFlashcards (details step)) as [|c cs]; cbn;
    repeat split; reflexivity.
Qed.

Lemma nextFlashcard_in_range s :
  currentFlashcards s <> [] ->
  0 <= currentFlashcardIndex s < Z.of_nat (List.length (currentFlashcards s)) ->
  let s' := exec nextFlashcard s in
  currentFlashcards s' = currentFlashcards s
  /\ currentFlashcardIndex s'
     = (currentFlashcardIndex s + 1) mod Z.of_nat (List.length (currentFlashcards s))
  /\ 0 <= currentFlashcardIndex s' < Z.of_nat (List.length (currentFlashcards s')).
Proof.
  intros N B. unfold nextFlashcard. js_unfold. cbn -[displayFlashcard Z.rem].
  destruct (currentFlashcards s) as [|c cs] eqn:E; [contradiction|].
  set (s1 := set_currentFlashcardIndex s _).
  destruct (displayFlashcard_keeps_cards s1) as (K1 & K2 & _).
  unfold exec in K1, K2. rewrite K1, K2. subst s1.
  cbn -[Z.rem Z.modulo Z.of_nat]. rewrite E.
  rewrite Z.rem_mod_nonneg by lia.
  repeat split; auto; apply Z.mod_pos_bound; lia.
Qed.

Lemma previousFlashcard_in_range s :
  currentFlashcards s <> [] ->
  0 <= currentFlashcardIndex s < Z.of_nat (List.length (currentFlashcards s)) ->
  let s' := exec previousFlashcard s in
  currentFlashcards s' = currentFlashcards s
  /\ currentFlashcardIndex s'
     = (currentFlashcardIndex s - 1 + Z.of_nat (List.length (currentFlashcards s)))
         mod Z.of_nat (List.length (currentFlashcards s))
  /\ 0 <= currentFlashcardIndex s' < Z.of_nat (List.length (currentFlashcards s')).
Proof.
  intros N B. unfold previousFlashcard. js_unfold. cbn -[displayFlashcard Z.rem].
  destruct (currentFlashcards s) as [|c cs] eqn:E; [contradiction|].
  set (s1 := set_currentFlashcardIndex s _).
  destruct (displayFlashcard_keeps_cards s1) as (K1 & K2 & _).
  unfold exec in K1, K2. rewrite K1, K2. subst s1.
  cbn -[Z.rem Z.modulo Z.of_nat]. rewrite E.
  rewrite Z.rem_mod_nonneg by lia.
  repeat split; auto; apply Z.mod_pos_bound; lia.
Qed.

Lemma flashcard_navigation_empty s :
  currentFlashcards s = [] ->
  nextFlashcard s = (Normal tt, s) /\ previousFlashcard s = (Normal tt, s).
Proof.
  intros E. unfold nextFlashcard, previousFlashcard. js_unfold.
  rewrite E. auto.
Qed.

(** C10.  When generateFlashcards recomputes the cards of the current step
    it resets the pagination index to 0 and shows the first card unflipped;
    on a non-empty card list nextFlashcard and previousFlashcard keep
    0 <= currentFlashcardIndex < number of cards; on an empty list both
    return at once and change nothing. *)
Theorem flashcard_pagination_invariant :
  (forall s r step,
      roadmapData s = Some r ->
      js_index (rm_steps r) (currentStepIndex s) = Some step ->
      let s' := exec generateFlashcards s in
      currentFlashcards s' = extractFlashcards (details step)
      /\ currentFlashcardIndex s' = 0
      /\ fc_flipped (flashcard s') = false
      /\ match currentFlashcards s' with
         | [] => fc_count (flashcard s') = 0
         | card :: _ =>
             fc_front (flashcard s') = front card
             /\ fc_back (flashcard s') = back card
             /\ fc_position (flashcard s') = 1
         end)
  /\ (forall s,
         currentFlashcards s <> [] ->
         0 <= currentFlashcardIndex s < Z.of_nat (List.length (currentFlashcards s)) ->
         let n := exec nextFlashcard s in
         let p := exec previousFlashcard s in
         currentFlashcards n = currentFlashcards s
         /\ 0 <= currentFlashcardIndex n < Z.of_nat (List.length (currentFlashcards n))
         /\ currentFlashcards p = currentFlashcards s
         /\ 0 <= currentFlashcardIndex p < Z.of_nat (List.length (currentFlashcards p)))
  /\ (forall s,
         currentFlashcards s = [] ->
         nextFlashcard s = (Normal tt, s) /\ previousFlashcard s = (Normal tt, s)).
Proof.
  split; [|split].
  - intros s r step R I.
    destruct (generateFlashcards_recomputes s r step R I) as (A & B & C & D).
    cbv zeta. rewrite A. auto.
  - intros s N B.
    destruct (nextFlashcard_in_range s N B) as (A1 & _ & A3).
    destruct (previousFlashcard_in_range s N B) as (B1 & _ & B3).
    cbv zeta. auto.
  - apply flashcard_navigation_empty.
Qed.

End PaginationFacts.

(** ** Chat transcript *)

Section ChatFacts.
Variable backend : Backend.

(** What sendChat does once the trimmed input is not empty. *)
Lemma sendChat_result s :
  let message := trim (chatInput s) in
  isEmpty message = false ->
  exists reply,
    sendChat backend s
    = (Normal tt,
       set_chatMessages
         (set_fetchLog
            (set_chatInput
               (set_chatMessages s
                  (chatMessages s ++ [mkChatMessage user (cleanMessage message)])%list)
               "")
            (fetchLog s ++ [ApiChat message])%list)
         (chatMessages s
            ++ [mkChatMessage user (cleanMessage message);
                mkChatMessage assistant (cleanMessage reply)])%list)
    /\ match backend (fetchLog s ++ [ApiChat message])%list with
       | Json data => reply = if success data then response data else chatFallback
       | Threw e => reply = "Error: " ++ e
       end.
Proof.
  intros message E. subst message.
  unfold sendChat, addChatMessage, fetchJson. js_unfold.
  cbn -[cleanMessage trim]. rewrite E. cbn -[cleanMessage trim].
  destruct (backend (fetchLog s ++ [ApiChat (trim (chatInput s))])%list) as [d|e].
  - destruct (success d); cbn -[cleanMessage trim];
      eexists; (split; [|reflexivity]);
      unfold set_chatMessages; cbn -[cleanMessage trim];
      rewrite <- app_assoc; reflexivity.
  - cbn -[cleanMessage trim].
    eexists; (split; [|reflexivity]).
    unfold set_chatMessages; cbn -[cleanMessage trim].
    rewrite <- app_assoc; reflexivity.
Qed.

(** An input that is empty once trimmed is neither shown nor sent. *)
Lemma sendChat_blank s :
  isEmpty (trim (chatInput s)) = true -> sendChat backend s = (Normal tt, s).
Proof.
  intros E. unfold sendChat. js_unfold. rewrite E. reflexivity.
Qed.

(** C8 (as amended).  The text shown for a chat message is the message with
    every '*' and '#' removed, then every line feed, whitespace, line feed
    run replaced by one line feed, then trimmed of leading and trailing
    whitespace; it holds no '*' and no '#'.  What is sent to the backend is
    the trimmed input, marks included.  The example of the specification
    renders as "Key point", line feed, "more". *)
Theorem chat_cleaning_is_display_only s :
  let message := trim (chatInput s) in
  isEmpty message = false ->
  let s' := exec (sendChat backend) s in
  fetchLog s' = (fetchLog s ++ [ApiChat message])%list
  /\ nth_error (chatMessages s') (List.length (chatMessages s))
     = Some (mkChatMessage user
               (trim (collapseBlankLines (removeMarks message))))
  /\ includes "*"%char (trim (collapseBlankLines (removeMarks message))) = false
  /\ includes "#"%char (trim (collapseBlankLines (removeMarks message))) = false
  /\ cleanMessage ("**Key** #point" ++ nl ++ nl ++ nl ++ "more")
     = "Key point" ++ nl ++ "more".
Proof.
  intros message E s'. subst s'.
  destruct (sendChat_result s E) as (reply & R & _).
  unfold exec. fold message in R. rewrite R.
  cbn -[cleanMessage trim nth_error].
  split; [reflexivity|]. split.
  - rewrite nth_error_app2 by lia. rewrite Nat.sub_diag. reflexivity.
  - destruct (cleanMessage_no_marks message) as [A B].
    repeat split; auto.
Qed.

(** C9 (as amended).  sendChat appends the user's message whatever the
    backend does, then one assistant message: the backend's reply on
    success, the fixed apology when the backend reports failure, and
    "Error: " followed by the exception's message when the request or the
    parsing fails. *)
Theorem chat_transcript_replies s :
  let message := trim (chatInput s) in
  isEmpty message = false ->
  let s' := exec (sendChat backend) s in
  exists reply,
    chatMessages s'
    = (chatMessages s
         ++ [mkChatMessage user (cleanMessage message);
             mkChatMessage assistant (cleanMessage reply)])%list
    /\ match backend (fetchLog s ++ [ApiChat message])%list with
       | Json data => reply = if success data then response data else chatFallback
       | Threw e => reply = "Error: " ++ e
       end
    /\ cleanMessage chatFallback = chatFallback.
Proof.
  intros message E s'. subst s'.
  destruct (sendChat_result s E) as (reply & R & O).
  exists reply. unfold exec. fold message in R. rewrite R.
  repeat split; auto.
Qed.

End ChatFacts.

(** C8: the claim's display rule fails on "* hi" (shown as "hi": the space
    left by the removed mark is trimmed away), and the input " hi " reaches
    the backend as "hi". *)
Lemma chat_cleaning_counterexample :
  chatMessages (exec (addChatMessage user "* hi") initialState)
  = [mkChatMessage user "hi"]
  /\ specCleanMessage "* hi" = " hi"
  /\ fetchLog (exec (sendChat (fun _ => Threw "offline"))
                 (set_chatInput initialState " hi "))
     = [ApiChat "hi"].
Proof. repeat split. Qed.

(** C9: two failed requests produce two different assistant messages,
    neither of them the fixed apology. *)
Lemma chat_fallback_counterexample :
  chatMessages (exec (sendChat (fun _ => Threw "Failed to fetch"))
                  (set_chatInput initialState "hi"))
  = [mkChatMessage user "hi";
     mkChatMessage assistant "Error: Failed to fetch"]
  /\ chatMessages (exec (sendChat (fun _ => Threw "Load failed"))
                     (set_chatInput initialState "hi"))
     = [mkChatMessage user "hi";
        mkChatMessage assistant "Error: Load failed"]
  /\ "Error: Failed to fetch" <> chatFallback.
Proof. repeat split. discriminate. Qed.

(** ** Frame reasoning *)

Section Keeps.
Context {T : Type} (proj : State -> T).

Lemma keeps_ret {A} (a : A) : keeps proj (ret a).
Proof. intro s. reflexivity. Qed.

Lemma keeps_throw {A} e : keeps proj (@throw A e).
Proof. intro s. reflexivity. Qed.

Lemma keeps_get : keeps proj get.
Proof. intro s. reflexivity. Qed.

Lemma keeps_modify f : (forall s, proj (f s) = proj s) -> keeps proj (modify f).
Proof. intros H s. apply H. Qed.

Lemma keeps_bind {A B} (m : Js A) (k : A -> Js B) :
  keeps proj m -> (forall a, keeps proj (k a)) -> keeps proj (bind m k).
Proof.
  intros Hm Hk s. unfold bind. specialize (Hm s).
  destruct (m s) as [[a|e] s1]; cbn in *; [|assumption].
  rewrite Hk. assumption.
Qed.

Lemma keeps_tryCatch {A} (m : Js A) (h : string -> Js A) :
  keeps proj m -> (forall e, keeps proj (h e)) -> keeps proj (tryCatch m h).
Proof.
  intros Hm Hh s. unfold tryCatch. specialize (Hm s).
  destruct (m s) as [[a|e] s1]; cbn in *; [assumption|].
  rewrite Hh. assumption.
Qed.

Lemma keeps_detached m : keeps proj m -> keeps proj (detached m).
Proof. intros H s. apply H. Qed.

Lemma keeps_fetchJson backend req :
  (forall s l, proj (set_fetchLog s l) = proj s) ->
  keeps proj (fetchJson backend req).
Proof.
  intros H s. unfold fetchJson.
  destruct (backend _); cbn; apply H.
Qed.

End Keeps.

Ltac keeps_step :=
  lazymatch goal with
  | |- keeps _ (bind _ _) => apply keeps_bind; [|intros ?]
  | |- keeps _ (tryCatch _ _) => apply keeps_tryCatch; [|intros ?]
  | |- keeps _ (detached _) => apply keeps_detached
  | |- keeps _ (ret _) => apply keeps_ret
  | |- keeps _ (throw _) => apply keeps_throw
  | |- keeps _ get => apply keeps_get
  | |- keeps _ (modify _) => apply keeps_modify; intros ?; reflexivity
  | |- keeps _ (fetchJson _ _) => apply keeps_fetchJson; intros ? ?; reflexivity
  | |- keeps _ (match ?x with _ => _ end) => destruct x
  end.

Ltac keeps_auto := repeat keeps_step.

(** Frame proof for a handler: unfold it down to the monad and decompose. *)
Ltac keeps_handler :=
  unfold nextStep, previousStep, minimapClick, startLearning, resetToStart,
    sendChat, generateQuiz, submitQuiz, addChatMessage, displayQuiz,
    displayQuizResults, updateLearningScreen, updateRightSidebar,
    updateRoadmapMinimap, generateFlashcards, nextFlashcard,
    previousFlashcard, displayFlashcard, fetchRelatedResources, loadGuide,
    loadNote, loadStats, showCompletionModal, showScreen, showLoading, alert;
  keeps_auto.

(** ** Step transitions *)

Section StepFacts.
Variable backend : Backend.

Lemma updateLearningScreen_keeps_session :
  keeps sessionPart (updateLearningScreen backend).
Proof.
  keeps_handler.
Qed.

(** *** Run equations of the loaders *)

Lemma loadGuide_run s :
  loadGuide backend s
  = (Normal tt, set_fetchLog s (fetchLog s ++ [ApiGetGuide])%list).
Proof.
  unfold loadGuide, fetchJson. js_unfold.
  destruct (backend _); reflexivity.
Qed.

Lemma loadNote_run s :
  loadNote backend s
  = (Normal tt, set_fetchLog s (fetchLog s ++ [ApiGetNote])%list).
Proof.
  unfold loadNote, fetchJson. js_unfold.
  destruct (backend _); reflexivity.
Qed.

Lemma loadStats_run s :
  loadStats backend s
  = (Normal tt, set_fetchLog s (fetchLog s ++ [ApiStats])%list).
Proof.
  unfold loadStats, fetchJson. js_unfold.
  destruct (backend _); reflexivity.
Qed.

Lemma fetchRelatedResources_run s r step :
  roadmapData s = Some r ->
  js_index (rm_steps r) (currentStepIndex s) = Some step ->
  fetchRelatedResources backend s
  = (Normal tt,
     set_fetchLog s
       (fetchLog s ++ [ApiGetResources (rm_topic r) (title step)])%list).
Proof.
  intros R I. unfold fetchRelatedResources, fetchJson. js_unfold.
  rewrite R, I. destruct (backend _); reflexivity.
Qed.

Lemma generateFlashcards_run s r step :
  roadmapData s = Some r ->
  js_index (rm_steps r) (currentStepIndex s) = Some step ->
  exists view,
    generateFlashcards s
    = (Normal tt,
       set_flashcard
         (set_currentFlashcardIndex
            (set_currentFlashcards s (extractFlashcards (details step))) 0)
         view).
Proof.
  intros R I. unfold generateFlashcards, displayFlashcard. js_unfold.
  cbn. rewrite R, I. cbn.
  destruct (extractFlashcards (details step)) as [|c cs]; cbn;
    eexists; reflexivity.
Qed.

(** Refreshing the learning screen when the cursor designates a step:
    guide and note are requested, the minimap is rebuilt, the flashcards
    are recomputed, the resources are requested and the transcript is
    emptied. *)
Lemma updateLearningScreen_run s r step :
  roadmapData s = Some r ->
  currentStepIndex s < totalSteps s ->
  js_index (rm_steps r) (currentStepIndex s) = Some step ->
  exists view,
    updateLearningScreen backend s
    = (Normal tt,
       set_chatMessages
         (set_fetchLog
            (set_flashcard
               (set_currentFlashcardIndex
                  (set_currentFlashcards
                     (set_roadmapMinimap s
                        (minimapItems (currentStepIndex s) 0 (rm_steps r)))
                     (extractFlashcards (details step)))
                  0)
               view)
            (fetchLog s
               ++ [ApiGetGuide; ApiGetNote;
                   ApiGetResources (rm_topic r) (title step)])%list)
         []).
Proof.
  intros R B I.
  unfold updateLearningScreen.
  unfold bind at 1. unfold get at 1. rewrite R.
  replace (currentStepIndex s >=? totalSteps s) with false
    by (symmetry; rewrite Z.geb_leb; apply Z.leb_gt; lia).
  rewrite I.
  unfold bind at 1. rewrite loadGuide_run.
  unfold bind at 1. rewrite loadNote_run.
  set (s2 := set_fetchLog (set_fetchLog s _) _).
  assert (R2 : roadmapData s2 = Some r) by exact R.
  assert (I2 : js_index (rm_steps r) (currentStepIndex s2) = Some step) by exact I.
  unfold updateRightSidebar, updateRoadmapMinimap.
  unfold bind at 1. unfold bind at 1. unfold bind at 1. unfold get at 1.
  rewrite R2. unfold modify at 1.
  set (s3 := set_roadmapMinimap s2 _).
  destruct (generateFlashcards_run s3 r step R2 I2) as (view & G).
  unfold bind at 1. rewrite G.
  set (s4 := set_flashcard _ view).
  unfold detached. rewrite (fetchRelatedResources_run s4 r step R2 I2).
  exists view. unfold modify. cbn.
  unfold set_chatMessages. cbn. rewrite <- !app_assoc. reflexivity.
Qed.

(** *** Run equation of nextStep *)

Lemma nextStep_run s :
  nextStep backend s
  = if currentStepIndex s >=? totalSteps s - 1
    then (Normal tt, set_completionModal s true)
    else
      let s1 := set_fetchLog s (fetchLog s ++ [ApiNextStep])%list in
      match backend (fetchLog s ++ [ApiNextStep])%list with
      | Threw e =>
          (Normal tt, set_alerts s1 (alerts s ++ [("Error: " ++ e)%string])%list)
      | Json data =>
          if success data then
            if completed data then (Normal tt, set_completionModal s1 true)
            else
              tryCatch (updateLearningScreen backend)
                (fun e => alert ("Error: " ++ e))
                (set_currentStepIndex s1 (d_currentStepIndex data))
          else (Normal tt, s1)
      end.
Proof.
  unfold nextStep. unfold bind at 1. unfold get at 1.
  destruct (currentStepIndex s >=? totalSteps s - 1); [reflexivity|].
  unfold tryCatch, bind, fetchJson.
  destruct (backend _) as [d|e]; [|reflexivity].
  destruct (success d); [|reflexivity].
  destruct (completed d); reflexivity.
Qed.

Lemma previousStep_run s :
  previousStep backend s
  = if currentStepIndex s =? 0 then (Normal tt, s)
    else detached (updateLearningScreen backend)
           (set_currentStepIndex s (currentStepIndex s - 1)).
Proof.
  unfold previousStep. unfold bind at 1. unfold get at 1.
  destruct (currentStepIndex s =? 0); reflexivity.
Qed.

Lemma minimapClick_run item s :
  minimapClick backend item s
  = match nth_error (roadmapMinimap s) item with
    | None => (Normal tt, s)
    | Some it =>
        detached (updateLearningScreen backend)
          (set_currentStepIndex s (Z.of_nat (mi_index it)))
    end.
Proof.
  unfold minimapClick. unfold bind at 1. unfold get at 1.
  destruct (nth_error (roadmapMinimap s) item); reflexivity.
Qed.

End StepFacts.

(** ** The cursor invariant *)

Section CursorFacts.
Variable backend : Backend.

Lemma js_index_in_range {A} (l : list A) i :
  0 <= i < Z.of_nat (List.length l) -> exists a, js_index l i = Some a.
Proof.
  intros B. unfold js_index.
  replace (i <? 0) with false by (symmetry; apply Z.ltb_ge; lia).
  destruct (nth_error l (Z.to_nat i)) as [a|] eqn:E; [eauto|].
  apply nth_error_None in E. lia.
Qed.

Lemma minimapItems_indexes cursor steps :
  forall index,
    Forall (fun it => (index <= mi_index it < index + List.length steps)%nat)
      (minimapItems cursor index steps).
Proof.
  induction steps as [|st rest IH]; intros index; cbn [minimapItems].
  - constructor.
  - constructor.
    + cbn. lia.
    + eapply Forall_impl; [|apply IH]. cbn. intros it H. lia.
Qed.

Lemma cursorInRange_spec r s :
  roadmapData s = Some r ->
  cursorInRange s = true
  <-> 0 <= currentStepIndex s < Z.of_nat (List.length (rm_steps r)).
Proof.
  intros R. unfold cursorInRange. rewrite R.
  rewrite andb_true_iff, Z.leb_le, Z.ltb_lt. tauto.
Qed.

(** A refresh keeps a well-set-up, in-range session so, and completes. *)
Lemma updateLearningScreen_session r s :
  sessionOn r s ->
  0 <= currentStepIndex s < Z.of_nat (List.length (rm_steps r)) ->
  exists s',
    updateLearningScreen backend s = (Normal tt, s')
    /\ sessionOn r s'
    /\ currentStepIndex s' = currentStepIndex s.
Proof.
  intros (R & T & M) B.
  destruct (js_index_in_range (rm_steps r) _ B) as (step & I).
  destruct (updateLearningScreen_run backend s r step R ltac:(lia) I)
    as (view & U).
  eexists. split; [exact U|]. split; [|reflexivity].
  split; [exact R|]. split; [exact T|].
  cbn. eapply Forall_impl; [|apply minimapItems_indexes]. cbn. lia.
Qed.

Lemma runOp_session r s op :
  (forall h d,
      backend (h ++ [ApiNextStep])%list = Json d ->
      success d = true -> completed d = false ->
      0 <= d_currentStepIndex d < Z.of_nat (List.length (rm_steps r))) ->
  sessionOn r s ->
  0 <= currentStepIndex s < Z.of_nat (List.length (rm_steps r)) ->
  sessionOn r (runOp backend op s)
  /\ 0 <= currentStepIndex (runOp backend op s)
       < Z.of_nat (List.length (rm_steps r)).
Proof.
  intros HB S B. destruct op as [| |item]; unfold runOp, exec.
  - rewrite nextStep_run.
    destruct (currentStepIndex s >=? totalSteps s - 1); [auto|].
    cbv zeta.
    destruct (backend (fetchLog s ++ [ApiNextStep])%list) as [d|e] eqn:E;
      [|auto].
    destruct (success d) eqn:Es; [|auto].
    destruct (completed d) eqn:Ec; [auto|].
    specialize (HB _ _ E Es Ec).
    set (s1 := set_currentStepIndex _ _).
    assert (S1 : sessionOn r s1) by exact S.
    destruct (updateLearningScreen_session r s1 S1 HB) as (s' & U & S' & C).
    unfold tryCatch. rewrite U. cbn [snd]. rewrite C. auto.
  - rewrite previousStep_run.
    destruct (currentStepIndex s =? 0) eqn:Z0; [auto|].
    apply Z.eqb_neq in Z0.
    set (s1 := set_currentStepIndex _ _).
    assert (S1 : sessionOn r s1) by exact S.
    assert (B1 : 0 <= currentStepIndex s1 < Z.of_nat (List.length (rm_steps r)))
      by (cbn; lia).
    destruct (updateLearningScreen_session r s1 S1 B1) as (s' & U & S' & C).
    unfold detached. rewrite U. cbn [snd]. rewrite C. auto.
  - rewrite minimapClick_run.
    destruct (nth_error (roadmapMinimap s) item) as [it|] eqn:N; [|auto].
    destruct S as (R & T & M).
    assert (Hi : (mi_index it < List.length (rm_steps r))%nat).
    { rewrite Forall_forall in M. apply M. eapply nth_error_In, N. }
    set (s1 := set_currentStepIndex _ _).
    assert (S1 : sessionOn r s1) by (repeat split; assumption).
    assert (B1 : 0 <= currentStepIndex s1 < Z.of_nat (List.length (rm_steps r)))
      by (cbn; lia).
    destruct (updateLearningScreen_session r s1 S1 B1) as (s' & U & S' & C).
    unfold detached. rewrite U. cbn [snd]. rewrite C. auto.
Qed.

(** C1 (as amended).  In a session set up on a roadmap, previousStep and
    minimap clicks keep 0 <= currentStepIndex < steps.length, and nextStep
    keeps it whenever the index the backend returns lies in that range
    (nextStep adopts the returned index as it is): under that condition on
    the backend every sequence of the three operations keeps the cursor in
    range and the roadmap in place. *)
Theorem cursor_stays_in_range r ops :
  forall s,
    (forall h d,
        backend (h ++ [ApiNextStep])%list = Json d ->
        success d = true -> completed d = false ->
        0 <= d_currentStepIndex d < Z.of_nat (List.length (rm_steps r))) ->
    sessionOn r s ->
    cursorInRange s = true ->
    roadmapData (runOps backend ops s) = Some r
    /\ cursorInRange (runOps backend ops s) = true.
Proof.
  induction ops as [|op rest IH]; intros s HB S C.
  - destruct S as (R & _). auto.
  - cbn [runOps].
    pose proof S as (R & _).
    apply (cursorInRange_spec r s R) in C.
    destruct (runOp_session r s op HB S C) as (S' & C').
    apply IH; auto.
    destruct S' as (R' & _). apply (cursorInRange_spec r _ R'). exact C'.
Qed.

(** C3 (as amended).  No cursor operation touches the quiz: after
    nextStep, previousStep or a minimap click the stored question set and
    the quiz panel are what they were before. *)
Theorem cursor_ops_keep_quiz op s :
  currentQuiz (runOp backend op s) = currentQuiz s
  /\ quizContent (runOp backend op s) = quizContent s.
Proof.
  assert (K : quizPart (runOp backend op s) = quizPart s).
  { destruct op; unfold runOp, exec.
    - assert (H : keeps quizPart (nextStep backend)) by keeps_handler.
      apply H.
    - assert (H : keeps quizPart (previousStep backend)) by keeps_handler.
      apply H.
    - assert (H : keeps quizPart (minimapClick backend item)) by keeps_handler.
      apply H. }
  unfold quizPart in K. split; congruence.
Qed.

End CursorFacts.

(** ** Advancing *)

Section AdvanceFacts.
Variable backend : Backend.

Lemma refresh_keeps_cursor :
  keeps currentStepIndex
    (tryCatch (updateLearningScreen backend)
       (fun e => alert ("Error: " ++ e))).
Proof. keeps_handler. Qed.

(** C5 (as amended).  Away from the last step, nextStep asks the backend.
    If the answer reports success and is not marked completed, the cursor
    becomes the returned index, whatever it is; if it reports success and
    is marked completed, the completion dialog is shown and the cursor
    stays; if it reports failure the cursor stays; if the request or the
    parsing fails the cursor stays and the error is alerted. *)
Theorem nextStep_adopts_backend_index s :
  currentStepIndex s < totalSteps s - 1 ->
  let s' := exec (nextStep backend) s in
  match backend (fetchLog s ++ [ApiNextStep])%list with
  | Json data =>
      if success data then
        if completed data then
          currentStepIndex s' = currentStepIndex s
          /\ completionModal s' = true
        else currentStepIndex s' = d_currentStepIndex data
      else currentStepIndex s' = currentStepIndex s
  | Threw e =>
      currentStepIndex s' = currentStepIndex s
      /\ alerts s' = (alerts s ++ [("Error: " ++ e)%string])%list
  end.
Proof.
  intros B s'. subst s'. unfold exec. rewrite nextStep_run.
  replace (currentStepIndex s >=? totalSteps s - 1) with false
    by (symmetry; rewrite Z.geb_leb; apply Z.leb_gt; lia).
  cbv zeta.
  destruct (backend (fetchLog s ++ [ApiNextStep])%list) as [d|e];
    [|split; reflexivity].
  destruct (success d); [|reflexivity].
  destruct (completed d); [split; reflexivity|].
  rewrite refresh_keeps_cursor. reflexivity.
Qed.

(** C6.  With the cursor on the last step (totalSteps - 1) nextStep shows
    the completion dialog and returns: no request is issued and the
    variables of the session are left as they were. *)
Theorem nextStep_at_last_step s :
  currentStepIndex s = totalSteps s - 1 ->
  nextStep backend s = (Normal tt, set_completionModal s true)
  /\ completionModal (exec (nextStep backend) s) = true
  /\ fetchLog (exec (nextStep backend) s) = fetchLog s
  /\ currentStepIndex (exec (nextStep backend) s) = currentStepIndex s
  /\ totalSteps (exec (nextStep backend) s) = totalSteps s
  /\ roadmapData (exec (nextStep backend) s) = roadmapData s
  /\ currentQuiz (exec (nextStep backend) s) = currentQuiz s
  /\ currentFlashcards (exec (nextStep backend) s) = currentFlashcards s
  /\ currentFlashcardIndex (exec (nextStep backend) s) = currentFlashcardIndex s.
Proof.
  intros L. unfold exec. rewrite nextStep_run.
  replace (currentStepIndex s >=? totalSteps s - 1) with true
    by (symmetry; rewrite Z.geb_leb; apply Z.leb_le; lia).
  repeat split.
Qed.

End AdvanceFacts.

(** ** Reset and restart *)

Section ResetFacts.
Variable backend : Backend.

Lemma resetToStart_run s :
  resetToStart backend s
  = (Normal tt,
     set_fetchLog
       (set_quizContent
          (set_chatMessages
             (set_completionModal
                (set_roadmapData
                   (set_currentStepIndex
                      (set_topicInput (set_screen s StartScreen) "") 0)
                   None)
                false)
             [])
          None)
       (fetchLog s ++ [ApiStats])%list).
Proof.
  unfold resetToStart, showScreen. js_unfold. cbn -[loadStats].
  rewrite loadStats_run. reflexivity.
Qed.

(** A start that the backend answers with a roadmap of at least one step. *)
Lemma startLearning_run s data step rest :
  isEmpty (trim (topicInput s)) = false ->
  backend (fetchLog s
             ++ [ApiStartTopic (trim (topicInput s)) (personaSelect s)
                   (difficultySelect s)])%list
  = Json data ->
  success data = true ->
  d_steps data = step :: rest ->
  exists view log,
    startLearning backend s
    = (Normal tt,
       set_chatMessages
         (set_fetchLog
            (set_flashcard
               (set_currentFlashcardIndex
                  (set_currentFlashcards
                     (set_roadmapMinimap
                        (set_screen
                           (set_currentStepIndex
                              (set_totalSteps
                                 (set_roadmapData s
                                    (Some (mkRoadmap (d_topic data) (d_steps data)
                                             (personaSelect s) (difficultySelect s))))
                                 (Z.of_nat (List.length (d_steps data))))
                              0)
                           LearningScreen)
                        (minimapItems 0 0 (d_steps data)))
                     (extractFlashcards (details step)))
                  0)
               view)
            log)
         []).
Proof.
  intros E O Su St.
  unfold startLearning.
  unfold bind at 1. unfold get at 1. rewrite E.
  unfold bind at 1. unfold showLoading at 1, modify at 1.
  unfold tryCatch. unfold bind at 1. unfold fetchJson at 1.
  cbn [fetchLog set_screen].
  rewrite O, Su.
  unfold showScreen. unfold bind at 1. unfold modify at 1.
  unfold bind at 1. unfold modify at 1.
  unfold bind at 1. unfold modify at 1.
  unfold bind at 1. unfold modify at 1.
  set (s1 := set_screen _ LearningScreen).
  set (r := mkRoadmap _ _ _ _) in *.
  assert (R : roadmapData s1 = Some r) by reflexivity.
  assert (B : currentStepIndex s1 < totalSteps s1).
  { cbn. rewrite St. cbn [List.length]. lia. }
  assert (I : js_index (rm_steps r) (currentStepIndex s1) = Some step).
  { cbn. rewrite St. reflexivity. }
  destruct (updateLearningScreen_run backend s1 r step R B I) as (view & U).
  rewrite U. exists view. eexists. reflexivity.
Qed.

Lemma startLearning_success s data step rest :
  isEmpty (trim (topicInput s)) = false ->
  backend (fetchLog s
             ++ [ApiStartTopic (trim (topicInput s)) (personaSelect s)
                   (difficultySelect s)])%list
  = Json data ->
  success data = true ->
  d_steps data = step :: rest ->
  let s' := exec (startLearning backend) s in
  roadmapData s'
  = Some (mkRoadmap (d_topic data) (d_steps data)
            (personaSelect s) (difficultySelect s))
  /\ totalSteps s' = Z.of_nat (List.length (d_steps data))
  /\ currentStepIndex s' = 0
  /\ screen s' = LearningScreen
  /\ currentFlashcards s' = extractFlashcards (details step)
  /\ currentFlashcardIndex s' = 0
  /\ chatMessages s' = []
  /\ roadmapMinimap s' = minimapItems 0 0 (d_steps data)
  /\ currentQuiz s' = currentQuiz s
  /\ quizContent s' = quizContent s
  /\ alerts s' = alerts s.
Proof.
  intros E O Su St s'. subst s'.
  destruct (startLearning_run s data step rest E O Su St) as (view & log & R).
  unfold exec. rewrite R. repeat split.
Qed.

(** X9.  A start that is answered with a roadmap of at least one step sets
    up a session in which totalSteps is the number of steps, the minimap
    lists entries of the new roadmap only and the cursor, on 0, is in range. *)
Lemma startLearning_establishes_session s data step rest :
  isEmpty (trim (topicInput s)) = false ->
  backend (fetchLog s
             ++ [ApiStartTopic (trim (topicInput s)) (personaSelect s)
                   (difficultySelect s)])%list
  = Json data ->
  success data = true ->
  d_steps data = step :: rest ->
  let r := mkRoadmap (d_topic data) (d_steps data)
             (personaSelect s) (difficultySelect s) in
  sessionOn r (exec (startLearning backend) s)
  /\ cursorInRange (exec (startLearning backend) s) = true.
Proof.
  intros E O Su St r.
  destruct (startLearning_success s data step rest E O Su St)
    as (A1 & A2 & A3 & _ & _ & _ & _ & A8 & _).
  split.
  - split; [exact A1|]. split; [exact A2|].
    rewrite A8. eapply Forall_impl; [|apply minimapItems_indexes].
    cbn. intros it H. lia.
  - apply (cursorInRange_spec r _ A1). rewrite A3. cbn. rewrite St.
    cbn [List.length]. lia.
Qed.

(** C4 (as amended).  resetToStart drops the roadmap, sets the cursor to 0
    and empties the transcript and the quiz panel; it leaves the stored
    flashcards and the stored quiz as they are.  When the user then enters
    a topic and startLearning is answered with a roadmap of at least one
    step, the session holds exactly that roadmap with the cursor on 0, the
    flashcards of its first step, an empty transcript and an empty quiz
    panel, while the stored quiz is still the one from before the reset. *)
Theorem reset_then_start s topic data step rest :
  let s0 := exec (resetToStart backend) s in
  let s1 := set_topicInput s0 topic in
  let s2 := exec (startLearning backend) s1 in
  isEmpty (trim topic) = false ->
  backend (fetchLog s1
             ++ [ApiStartTopic (trim topic) (personaSelect s)
                   (difficultySelect s)])%list
  = Json data ->
  success data = true ->
  d_steps data = step :: rest ->
  (roadmapData s0 = None
   /\ currentStepIndex s0 = 0
   /\ chatMessages s0 = []
   /\ quizContent s0 = None
   /\ currentFlashcards s0 = currentFlashcards s
   /\ currentQuiz s0 = currentQuiz s)
  /\ (roadmapData s2
      = Some (mkRoadmap (d_topic data) (d_steps data)
                (personaSelect s) (difficultySelect s))
      /\ totalSteps s2 = Z.of_nat (List.length (d_steps data))
      /\ currentStepIndex s2 = 0
      /\ currentFlashcards s2 = extractFlashcards (details step)
      /\ currentFlashcardIndex s2 = 0
      /\ chatMessages s2 = []
      /\ quizContent s2 = None
      /\ currentQuiz s2 = currentQuiz s).
Proof.
  intros s0 s1 s2 E O Su St.
  assert (R0 : s0 = snd (resetToStart backend s)) by reflexivity.
  rewrite resetToStart_run in R0. cbn [snd] in R0.
  split.
  - rewrite R0. repeat split.
  - assert (P : personaSelect s1 = personaSelect s) by (subst s1; rewrite R0; reflexivity).
    assert (D : difficultySelect s1 = difficultySelect s) by (subst s1; rewrite R0; reflexivity).
    assert (T : topicInput s1 = topic) by reflexivity.
    destruct (startLearning_success s1 data step rest) as
      (A1 & A2 & A3 & A4 & A5 & A6 & A7 & A8 & A9 & A10 & A11).
    + rewrite T. exact E.
    + rewrite T, P, D. exact O.
    + exact Su.
    + exact St.
    + fold s2 in A1, A2, A3, A4, A5, A6, A7, A8, A9, A10, A11.
      rewrite P, D in A1.
      repeat split; try assumption.
      * rewrite A10. subst s1. rewrite R0. reflexivity.
      * rewrite A9. subst s1. rewrite R0. reflexivity.
Qed.

End ResetFacts.

(** ** Counterexamples to the claims as first stated *)

(** C1: the backend answers next-step with index 7 on a three-step roadmap;
    nextStep adopts it and the cursor leaves the range. *)
Lemma cursor_leaves_range :
  cursorInRange demoSession = true
  /\ roadmapData (runOps (always (Json farData)) [AdvanceStep] demoSession)
     = Some demoRoadmap
  /\ currentStepIndex (runOps (always (Json farData)) [AdvanceStep] demoSession)
     = 7
  /\ cursorInRange (runOps (always (Json farData)) [AdvanceStep] demoSession)
     = false.
Proof. repeat split. Qed.

(** C3: a quiz generated on step 0 is still stored after each of the three
    cursor operations has moved the cursor. *)
Lemma quiz_survives_step_change :
  currentQuiz demoQuizSession = Some [demoQuestion]
  /\ currentStepIndex demoQuizSession = 0
  /\ currentStepIndex (runOp (always (Json demoData)) AdvanceStep demoQuizSession) = 1
  /\ currentQuiz (runOp (always (Json demoData)) AdvanceStep demoQuizSession)
     = Some [demoQuestion]
  /\ currentStepIndex (runOp (always (Json demoData)) (JumpToStep 2) demoQuizSession) = 2
  /\ currentQuiz (runOp (always (Json demoData)) (JumpToStep 2) demoQuizSession)
     = Some [demoQuestion]
  /\ currentStepIndex
       (runOps (always (Json demoData)) [AdvanceStep; RetreatStep] demoQuizSession) = 0
  /\ currentQuiz
       (runOps (always (Json demoData)) [AdvanceStep; RetreatStep] demoQuizSession)
     = Some [demoQuestion].
Proof. repeat split. Qed.

(** C4: after a reset the flashcards and the quiz of the old session are
    still stored; the quiz is still there after the next successful start,
    and so are the flashcards when the new roadmap has no step. *)
Lemma reset_keeps_quiz_and_flashcards :
  let reset := exec (resetToStart (always (Json demoData))) demoQuizSession in
  let restarted :=
    exec (startLearning (always (Json demoData))) (set_topicInput reset "Go") in
  let restartedEmpty :=
    exec (startLearning (always (Json emptyData))) (set_topicInput reset "Go") in
  currentFlashcards reset
  = [mkFlashcard "Term" "Definition";
     mkFlashcard "Key Concept" "A moderately long descriptive sentence."]
  /\ currentQuiz reset = Some [demoQuestion]
  /\ screen restarted = LearningScreen
  /\ currentQuiz restarted = Some [demoQuestion]
  /\ screen restartedEmpty = LearningScreen
  /\ currentFlashcards restartedEmpty
     = [mkFlashcard "Term" "Definition";
        mkFlashcard "Key Concept" "A moderately long descriptive sentence."].
Proof. repeat split. Qed.

(** C5: a successful answer marked completed carries index 2; the cursor
    stays on 0. *)
Lemma completed_answer_not_adopted :
  currentStepIndex demoSession = 0
  /\ totalSteps demoSession = 3
  /\ success completedData = true
  /\ d_currentStepIndex completedData = 2
  /\ currentStepIndex (exec (nextStep (always (Json completedData))) demoSession)
     = 0.
Proof. repeat split. Qed.

(** ** Failures reported by the backend *)

Section FailureFacts.
Variable backend : Backend.

(** A next-step answer with [success] false changes nothing but the
    request log. *)
Lemma nextStep_reported_failure s data :
  currentStepIndex s < totalSteps s - 1 ->
  backend (fetchLog s ++ [ApiNextStep])%list = Json data ->
  success data = false ->
  nextStep backend s
  = (Normal tt, set_fetchLog s (fetchLog s ++ [ApiNextStep])%list).
Proof.
  intros B O F. rewrite nextStep_run.
  replace (currentStepIndex s >=? totalSteps s - 1) with false
    by (symmetry; rewrite Z.geb_leb; apply Z.leb_gt; lia).
  cbv zeta. rewrite O, F. reflexivity.
Qed.

Lemma submitQuiz_reported_failure s data :
  backend (fetchLog s
             ++ [ApiSubmitQuiz
                   match quizContent s with
                   | Some v => qv_selected v
                   | None => []
                   end (currentQuiz s)])%list
  = Json data ->
  success data = false ->
  alerts (exec (submitQuiz backend) s) = alerts s
  /\ quizResultsModal (exec (submitQuiz backend) s) = quizResultsModal s.
Proof.
  intros O F. unfold exec, submitQuiz, fetchJson. js_unfold.
  cbn. rewrite O, F. split; reflexivity.
Qed.

End FailureFacts.

(** C7.  Every failure is claimed to raise a notification.  When the
    backend answers next-step or submit-quiz with success: false, nextStep
    and submitQuiz alert nothing, while startLearning and generateQuiz do
    alert on the same answer. *)
Theorem reported_failure_not_notified :
  alerts (exec (nextStep (always (Json failedData))) demoSession) = []
  /\ currentStepIndex (exec (nextStep (always (Json failedData))) demoSession) = 0
  /\ alerts (exec (submitQuiz (always (Json failedData))) demoQuizSession) = []
  /\ quizResultsModal (exec (submitQuiz (always (Json failedData))) demoQuizSession)
     = None
  /\ alerts (exec (startLearning (always (Json failedData)))
               (set_topicInput initialState "Rust"))
     = ["Error: Session expired"]
  /\ alerts (exec (generateQuiz (always (Json failedData))) demoSession)
     = ["Error generating quiz: Session expired"].
Proof. repeat split. Qed.

(** ** The theorems at concrete sessions *)

Lemma cursor_stays_in_range_witness :
  sessionOn demoRoadmap demoSession
  /\ cursorInRange demoSession = true
  /\ roadmapData
       (runOps (always (Json demoData))
          [AdvanceStep; RetreatStep; JumpToStep 2; AdvanceStep] demoSession)
     = Some demoRoadmap
  /\ cursorInRange
       (runOps (always (Json demoData))
          [AdvanceStep; RetreatStep; JumpToStep 2; AdvanceStep] demoSession)
     = true.
Proof.
  assert (S : sessionOn demoRoadmap demoSession).
  { split; [reflexivity|]. split; [reflexivity|].
    vm_compute. repeat constructor. }
  split; [exact S|]. split; [reflexivity|].
  apply (cursor_stays_in_range (always (Json demoData)) demoRoadmap
           [AdvanceStep; RetreatStep; JumpToStep 2; AdvanceStep] demoSession).
  - intros h d E _ _. unfold always in E. injection E as <-.
    change (0 <= 1 < 3). lia.
  - exact S.
  - reflexivity.
Defined.

Lemma reset_then_start_witness :
  let b := always (Json demoData) in
  let s0 := exec (resetToStart b) demoQuizSession in
  let s2 := exec (startLearning b) (set_topicInput s0 "Go") in
  isEmpty (trim "Go") = false
  /\ success demoData = true
  /\ (roadmapData s0 = None
      /\ currentStepIndex s0 = 0
      /\ chatMessages s0 = []
      /\ quizContent s0 = None
      /\ currentFlashcards s0 = currentFlashcards demoQuizSession
      /\ currentQuiz s0 = currentQuiz demoQuizSession)
  /\ (roadmapData s2 = Some (mkRoadmap "Rust" demoSteps "" "")
      /\ totalSteps s2 = 3
      /\ currentStepIndex s2 = 0
      /\ currentFlashcards s2
         = extractFlashcards
             ["Term: Definition"; "short"; "A moderately long descriptive sentence."]
      /\ currentFlashcardIndex s2 = 0
      /\ chatMessages s2 = []
      /\ quizContent s2 = None
      /\ currentQuiz s2 = currentQuiz demoQuizSession).
Proof.
  intros b s0 s2.
  split; [reflexivity|]. split; [reflexivity|].
  apply (reset_then_start b demoQuizSession "Go" demoData
           (mkStep 1 "Ownership"
              ["Term: Definition"; "short";
               "A moderately long descriptive sentence."])
           [mkStep 2 "Borrowing" ["Time: 10:30"]; mkStep 3 "Lifetimes" []]);
    reflexivity.
Defined.

Lemma nextStep_adopts_backend_index_witness :
  currentStepIndex demoSession < totalSteps demoSession - 1
  /\ currentStepIndex (exec (nextStep (always (Json demoData))) demoSession)
     = d_currentStepIndex demoData
  /\ (currentStepIndex (exec (nextStep (always (Threw "Failed to fetch"))) demoSession)
      = currentStepIndex demoSession
      /\ alerts (exec (nextStep (always (Threw "Failed to fetch"))) demoSession)
         = (alerts demoSession ++ ["Error: Failed to fetch"])%list).
Proof.
  assert (B : currentStepIndex demoSession < totalSteps demoSession - 1)
    by reflexivity.
  split; [exact B|]. split.
  - exact (nextStep_adopts_backend_index (always (Json demoData)) demoSession B).
  - exact (nextStep_adopts_backend_index (always (Threw "Failed to fetch"))
             demoSession B).
Defined.

Lemma nextStep_at_last_step_witness :
  let s := exec (minimapClick (always (Json demoData)) 2) demoSession in
  currentStepIndex s = totalSteps s - 1
  /\ nextStep (always (Json demoData)) s = (Normal tt, set_completionModal s true)
  /\ fetchLog (exec (nextStep (always (Json demoData))) s) = fetchLog s.
Proof.
  intros s.
  assert (L : currentStepIndex s = totalSteps s - 1) by reflexivity.
  split; [exact L|].
  destruct (nextStep_at_last_step (always (Json demoData)) s L)
    as (A & _ & B & _).
  split; [exact A | exact B].
Defined.

Lemma chat_cleaning_is_display_only_witness :
  let s := set_chatInput demoSession " **Key** #point " in
  isEmpty (trim (chatInput s)) = false
  /\ fetchLog (exec (sendChat (always (Json demoData))) s)
     = (fetchLog s ++ [ApiChat "**Key** #point"])%list
  /\ nth_error (chatMessages (exec (sendChat (always (Json demoData))) s))
       (List.length (chatMessages s))
     = Some (mkChatMessage user
               (trim (collapseBlankLines (removeMarks "**Key** #point")))).
Proof.
  intros s.
  assert (E : isEmpty (trim (chatInput s)) = false) by reflexivity.
  split; [exact E|].
  destruct (chat_cleaning_is_display_only (always (Json demoData)) s E)
    as (A & B & _).
  split; [exact A | exact B].
Defined.

Lemma chat_transcript_replies_witness :
  let s := set_chatInput demoSession "What is a borrow?" in
  isEmpty (trim (chatInput s)) = false
  /\ exists reply,
       chatMessages (exec (sendChat (always (Json failedData))) s)
       = (chatMessages s
            ++ [mkChatMessage user (cleanMessage "What is a borrow?");
                mkChatMessage assistant (cleanMessage reply)])%list
       /\ reply = chatFallback.
Proof.
  intros s.
  assert (E : isEmpty (trim (chatInput s)) = false) by reflexivity.
  split; [exact E|].
  destruct (chat_transcript_replies (always (Json failedData)) s E)
    as (reply & A & B & _).
  exists reply. split; [exact A | exact B].
Defined.

Lemma flashcard_pagination_invariant_witness :
  (roadmapData demoSession = Some demoRoadmap
   /\ currentFlashcardIndex (exec generateFlashcards demoSession) = 0
   /\ fc_flipped (flashcard (exec generateFlashcards demoSession)) = false)
  /\ (currentFlashcards demoSession <> []
      /\ 0 <= currentFlashcardIndex (exec nextFlashcard demoSession)
           < Z.of_nat (List.length (currentFlashcards (exec nextFlashcard demoSession)))
      /\ 0 <= currentFlashcardIndex (exec previousFlashcard demoSession)
           < Z.of_nat (List.length (currentFlashcards (exec previousFlashcard demoSession))))
  /\ (currentFlashcards initialState = []
      /\ nextFlashcard initialState = (Normal tt, initialState)
      /\ previousFlashcard initialState = (Normal tt, initialState)).
Proof.
  destruct flashcard_pagination_invariant as (G & N & Z).
  split; [|split].
  - split; [reflexivity|].
    destruct (G demoSession demoRoadmap
                (mkStep 1 "Ownership"
                   ["Term: Definition"; "short";
                    "A moderately long descriptive sentence."])
                eq_refl eq_refl) as (_ & A & B & _).
    split; [exact A | exact B].
  - assert (Ne : currentFlashcards demoSession <> []) by discriminate.
    split; [exact Ne|].
    assert (B : 0 <= currentFlashcardIndex demoSession
                < Z.of_nat (List.length (currentFlashcards demoSession)))
      by (change (0 <= 0 < 2); lia).
    destruct (N demoSession Ne B) as (_ & A1 & _ & A2).
    split; [exact A1 | exact A2].
  - split; [reflexivity|]. apply (Z initialState). reflexivity.
Defined.

(** * Further properties of the controller *)

(** ** Trimming *)

Section TrimFacts.

Lemma trimStart_no_leading_space s : startsWithSpace (trimStart s) = false.
Proof.
  induction s as [|c r IH]; cbn; auto.
  destruct (isWhiteSpace c) eqn:W; cbn; auto.
Qed.

Lemma trimStart_fixed s : startsWithSpace s = false -> trimStart s = s.
Proof.
  destruct s as [|c r]; cbn; auto. intros W. rewrite W. reflexivity.
Qed.

Lemma endsWithSpace_cons c r :
  endsWithSpace (String c r) = if isEmpty r then isWhiteSpace c else endsWithSpace r.
Proof. destruct r; reflexivity. Qed.

Lemma trimEnd_no_trailing_space s : endsWithSpace (trimEnd s) = false.
Proof.
  induction s as [|c r IH]; [reflexivity|].
  cbn [trimEnd].
  destruct (isWhiteSpace c) eqn:W; destruct (isEmpty (trimEnd r)) eqn:E;
    cbn [andb]; try reflexivity;
    rewrite endsWithSpace_cons, E; auto.
Qed.

Lemma trimEnd_fixed s : endsWithSpace s = false -> trimEnd s = s.
Proof.
  induction s as [|c r IH]; [reflexivity|].
  rewrite endsWithSpace_cons. cbn [trimEnd].
  destruct r as [|d r'].
  - cbn. intros W. rewrite W. reflexivity.
  - cbn [isEmpty]. intros H. rewrite (IH H). cbn [isEmpty].
    rewrite andb_false_r. reflexivity.
Qed.

Lemma trimEnd_keeps_head s :
  startsWithSpace s = false -> startsWithSpace (trimEnd s) = false.
Proof.
  destruct s as [|c r]; [reflexivity|].
  cbn [startsWithSpace trimEnd]. intros W. rewrite W. cbn. exact W.
Qed.

Lemma trim_no_outer_space s :
  startsWithSpace (trim s) = false /\ endsWithSpace (trim s) = false.
Proof.
  unfold trim. split.
  - apply trimEnd_keeps_head, trimStart_no_leading_space.
  - apply trimEnd_no_trailing_space.
Qed.

Lemma trim_fixed s :
  startsWithSpace s = false -> endsWithSpace s = false -> trim s = s.
Proof.
  intros A B. unfold trim. rewrite (trimStart_fixed s A). apply trimEnd_fixed, B.
Qed.

Lemma trim_idempotent s : trim (trim s) = trim s.
Proof.
  destruct (trim_no_outer_space s) as [A B]. apply trim_fixed; assumption.
Qed.

End TrimFacts.

(** ** More on flashcard extraction *)

Section ExtractionFacts.

Lemma split_pieces_no_separator sep s :
  Forall (fun p => includes sep p = false) (split sep s).
Proof.
  induction s as [|c r IH]; cbn [split].
  - repeat constructor.
  - destruct (Ascii.eqb c sep) eqn:E.
    + constructor; [reflexivity | exact IH].
    + destruct (split sep r) as [|p ps].
      * constructor; [cbn; rewrite E; reflexivity | constructor].
      * inversion IH as [|? ? Hp Hps]; subst.
        constructor; [cbn; rewrite E; exact Hp | exact Hps].
Qed.

Lemma trim_no_separator sep s : includes sep s = false -> includes sep (trim s) = false.
Proof.
  intros H. destruct (includes sep (trim s)) eqn:E; [|reflexivity].
  apply includes_trim in E. congruence.
Qed.

Lemma cardOfDetail_faces detail card :
  cardOfDetail detail = Some card ->
  includes colon (front card) = false
  /\ includes colon (back card) = false
  /\ trim (front card) = front card
  /\ trim (back card) = back card.
Proof.
  unfold cardOfDetail.
  destruct (includes colon detail) eqn:I.
  - pose proof (split_pieces_no_separator colon detail) as F.
    destruct (split colon detail) as [|term [|definition rest]]; try discriminate.
    intros H. injection H as <-. cbn [front back].
    inversion F as [|? ? Ht F']; subst. inversion F' as [|? ? Hd _]; subst.
    repeat split; auto using trim_no_separator, trim_idempotent.
  - destruct (Z.of_nat (String.length detail) >? 20); [|discriminate].
    intros H. injection H as <-. cbn [front back].
    repeat split; auto using trim_no_separator, trim_idempotent.
Qed.

Lemma cardOfDetail_yields detail :
  yieldsCard detail = match cardOfDetail detail with Some _ => true | None => false end.
Proof.
  unfold yieldsCard. destruct (includes colon detail) eqn:I.
  - destruct (cardOfDetail_colon detail I) as (t & d & r & _ & ->). reflexivity.
  - unfold cardOfDetail. rewrite I.
    destruct (Z.of_nat (String.length detail) >? 20); reflexivity.
Qed.

(** X1.  Extraction works line by line and keeps the order of the lines:
    the cards of a concatenation are the cards of its parts, in sequence. *)
Theorem extractFlashcards_app a b :
  extractFlashcards (a ++ b) = (extractFlashcards a ++ extractFlashcards b)%list.
Proof.
  induction a as [|d rest IH]; [reflexivity|].
  cbn [extractFlashcards app]. rewrite IH.
  destruct (cardOfDetail d); reflexivity.
Qed.

(** X2.  There are exactly as many cards as there are lines that contain a
    colon or are longer than 20 characters; in particular a line with a colon
    yields a card however short it is, and never more than one. *)
Theorem extractFlashcards_count details :
  List.length (extractFlashcards details) = List.length (filter yieldsCard details)
  /\ (List.length (extractFlashcards details) <= List.length details)%nat.
Proof.
  induction details as [|d rest [IH1 IH2]]; [split; reflexivity|].
  cbn [extractFlashcards filter]. rewrite cardOfDetail_yields.
  destruct (cardOfDetail d); cbn [List.length]; split; lia.
Qed.

(** X3.  No face of an extracted card contains a colon, and every face is
    trimmed: trimming it again changes nothing. *)
Theorem extractFlashcards_faces details card :
  In card (extractFlashcards details) ->
  includes colon (front card) = false
  /\ includes colon (back card) = false
  /\ trim (front card) = front card
  /\ trim (back card) = back card.
Proof.
  induction details as [|d rest IH]; cbn [extractFlashcards]; [contradiction|].
  destruct (cardOfDetail d) as [c|] eqn:E; [|exact IH].
  intros [<-|H]; [exact (cardOfDetail_faces d c E) | exact (IH H)].
Qed.

End ExtractionFacts.

(** ** The shape of rendered chat text *)

Section CleaningFacts.

Lemma isWhiteSpace_LF : isWhiteSpace LF = true.
Proof. reflexivity. Qed.

Lemma matchSpacesLF_lfInRun s :
  lfInRun s = match matchSpacesLF s with Some _ => true | None => false end.
Proof.
  induction s as [|c r IH]; [reflexivity|].
  cbn [lfInRun matchSpacesLF]. rewrite IH.
  destruct (isWhiteSpace c); [|reflexivity]. cbn [andb].
  destruct (matchSpacesLF r).
  - apply orb_true_r.
  - rewrite orb_false_r. destruct (Ascii.eqb c LF); reflexivity.
Qed.

Lemma matchBlankLines_none c r :
  matchBlankLines (String c r) = None <-> (c <> LF \/ lfInRun r = false).
Proof.
  cbn [matchBlankLines]. rewrite matchSpacesLF_lfInRun.
  destruct (Ascii.eqb_spec c LF) as [->|N].
  - destruct (matchSpacesLF r); cbn; split; intros H;
      try discriminate; auto.
    destruct H as [H|H]; [contradiction | discriminate].
  - split; auto.
Qed.

Lemma lfInRun_replace s :
  lfInRun s = false -> lfInRun (replaceBlankLines 0 s) = false.
Proof.
  induction s as [|d r IH]; [reflexivity|].
  intros H. cbn [lfInRun] in H.
  assert (N : matchBlankLines (String d r) = None).
  { apply matchBlankLines_none. left. intros ->.
    rewrite isWhiteSpace_LF, Ascii.eqb_refl in H. discriminate. }
  cbn [replaceBlankLines]. rewrite N. cbn [lfInRun].
  destruct (isWhiteSpace d); [|reflexivity]. cbn [andb] in *.
  apply orb_false_iff in H. destruct H as [H1 H2].
  rewrite H1, (IH H2). reflexivity.
Qed.

Lemma lfInRun_after_match r :
  forall m, matchSpacesLF r = Some m -> lfInRun (replaceBlankLines m r) = false.
Proof.
  induction r as [|c r' IH]; intros m H; [discriminate|].
  cbn [matchSpacesLF] in H.
  destruct (isWhiteSpace c); [|discriminate].
  destruct (matchSpacesLF r') as [m'|] eqn:E.
  - injection H as <-. cbn [replaceBlankLines]. apply IH. reflexivity.
  - destruct (Ascii.eqb c LF); [|discriminate].
    injection H as <-. cbn [replaceBlankLines].
    apply lfInRun_replace. rewrite matchSpacesLF_lfInRun, E. reflexivity.
Qed.

Lemma replaceBlankLines_noBlankRun s :
  forall skip, noBlankRun (replaceBlankLines skip s) = true.
Proof.
  induction s as [|c r IH]; intros skip; [reflexivity|].
  destruct skip as [|k]; [|cbn [replaceBlankLines]; apply IH].
  cbn [replaceBlankLines].
  destruct (matchBlankLines (String c r)) as [n|] eqn:E.
  - cbn [matchBlankLines] in E.
    destruct (Ascii.eqb c LF); [|discriminate].
    destruct (matchSpacesLF r) as [m|] eqn:M; [|discriminate].
    injection E as <-. cbn [Nat.pred].
    cbn [noBlankRun]. rewrite IH, andb_true_r.
    assert (N : matchBlankLines (String LF (replaceBlankLines m r)) = None).
    { apply matchBlankLines_none. right. apply lfInRun_after_match, M. }
    rewrite N. reflexivity.
  - cbn [noBlankRun]. rewrite IH, andb_true_r.
    assert (N : matchBlankLines (String c (replaceBlankLines 0 r)) = None).
    { apply matchBlankLines_none. apply matchBlankLines_none in E.
      destruct E as [E|E]; [left; exact E | right; apply lfInRun_replace, E]. }
    rewrite N. reflexivity.
Qed.

Lemma noBlankRun_cons c r :
  noBlankRun (String c r) = true ->
  matchBlankLines (String c r) = None /\ noBlankRun r = true.
Proof.
  cbn [noBlankRun]. intros H. apply andb_true_iff in H. destruct H as [A B].
  split; [|exact B]. destruct (matchBlankLines (String c r)); [discriminate | reflexivity].
Qed.

Lemma replaceBlankLines_fixed s :
  noBlankRun s = true -> replaceBlankLines 0 s = s.
Proof.
  induction s as [|c r IH]; [reflexivity|].
  intros H. apply noBlankRun_cons in H. destruct H as [A B].
  cbn [replaceBlankLines]. rewrite A, (IH B). reflexivity.
Qed.

Lemma noBlankRun_trimStart s : noBlankRun s = true -> noBlankRun (trimStart s) = true.
Proof.
  induction s as [|c r IH]; [auto|].
  intros H. cbn [trimStart]. destruct (isWhiteSpace c); [|exact H].
  apply noBlankRun_cons in H. apply IH, H.
Qed.

Lemma lfInRun_trimEnd s : lfInRun s = false -> lfInRun (trimEnd s) = false.
Proof.
  induction s as [|d r IH]; [auto|].
  cbn [lfInRun trimEnd]. intros H.
  destruct (isWhiteSpace d && isEmpty (trimEnd r))%bool; [reflexivity|].
  cbn [lfInRun]. destruct (isWhiteSpace d); [|reflexivity]. cbn [andb] in *.
  apply orb_false_iff in H. destruct H as [H1 H2].
  rewrite H1, (IH H2). reflexivity.
Qed.

Lemma noBlankRun_trimEnd s : noBlankRun s = true -> noBlankRun (trimEnd s) = true.
Proof.
  induction s as [|c r IH]; [auto|].
  intros H. apply noBlankRun_cons in H. destruct H as [A B].
  cbn [trimEnd].
  destruct (isWhiteSpace c && isEmpty (trimEnd r))%bool; [reflexivity|].
  cbn [noBlankRun]. rewrite (IH B), andb_true_r.
  assert (N : matchBlankLines (String c (trimEnd r)) = None).
  { apply matchBlankLines_none. apply matchBlankLines_none in A.
    destruct A as [A|A]; [left; exact A | right; apply lfInRun_trimEnd, A]. }
  rewrite N. reflexivity.
Qed.

Lemma removeMarks_fixed s :
  includes "*"%char s = false -> includes "#"%char s = false -> removeMarks s = s.
Proof.
  induction s as [|c r IH]; [reflexivity|].
  cbn [includes removeMarks]. intros A B.
  apply orb_false_iff in A. apply orb_false_iff in B.
  destruct A as [A1 A2], B as [B1 B2].
  rewrite A1, B1, (IH A2 B2). reflexivity.
Qed.

(** X4.  The text put in the transcript is in normal form: no line feed is
    followed by whitespace up to another line feed (there is no blank line
    left), and the text neither starts nor ends with whitespace. *)
Theorem cleanMessage_normal_form m :
  noBlankRun (cleanMessage m) = true
  /\ startsWithSpace (cleanMessage m) = false
  /\ endsWithSpace (cleanMessage m) = false.
Proof.
  unfold cleanMessage. split.
  - unfold trim, collapseBlankLines.
    apply noBlankRun_trimEnd, noBlankRun_trimStart, replaceBlankLines_noBlankRun.
  - apply trim_no_outer_space.
Qed.

(** X5.  Cleaning is idempotent: text that has been cleaned for display is
    left unchanged when it is cleaned again. *)
Theorem cleanMessage_idempotent m :
  cleanMessage (cleanMessage m) = cleanMessage m.
Proof.
  destruct (cleanMessage_no_marks m) as [S H].
  assert (B : noBlankRun (cleanMessage m) = true).
  { unfold cleanMessage, trim, collapseBlankLines.
    apply noBlankRun_trimEnd, noBlankRun_trimStart, replaceBlankLines_noBlankRun. }
  unfold cleanMessage at 1.
  rewrite (removeMarks_fixed _ S H).
  unfold collapseBlankLines. rewrite (replaceBlankLines_fixed _ B).
  unfold cleanMessage. apply trim_idempotent.
Qed.

End CleaningFacts.

(** ** More on flashcard pagination *)

Section NavigationFacts.

Lemma displayFlashcard_run s card :
  js_index (currentFlashcards s) (currentFlashcardIndex s) = Some card ->
  displayFlashcard s
  = (Normal tt,
     set_flashcard s
       (mkFlashcardView false (front card) (back card)
          (currentFlashcardIndex s + 1)
          (Z.of_nat (List.length (currentFlashcards s))))).
Proof.
  intros I. unfold displayFlashcard. js_unfold. cbn.
  destruct (currentFlashcards s) as [|c cs] eqn:E.
  - unfold js_index in I. destruct (currentFlashcardIndex s <? 0); [discriminate|].
    destruct (Z.to_nat (currentFlashcardIndex s)); discriminate.
  - rewrite I. unfold set_flashcard. cbn. rewrite ?E. reflexivity.
Qed.

Lemma shown_after_move s i :
  0 <= i < Z.of_nat (List.length (currentFlashcards s)) ->
  let s1 := set_currentFlashcardIndex s i in
  exists card,
    js_index (currentFlashcards s) i = Some card
    /\ displayFlashcard s1
       = (Normal tt,
          set_flashcard s1
            (mkFlashcardView false (front card) (back card) (i + 1)
               (Z.of_nat (List.length (currentFlashcards s))))).
Proof.
  intros B s1.
  destruct (js_index_in_range (currentFlashcards s) i B) as (card & I).
  exists card. split; [exact I|].
  apply (displayFlashcard_run s1 card). exact I.
Qed.

Lemma nextFlashcard_unfold s :
  currentFlashcards s <> [] ->
  nextFlashcard s
  = displayFlashcard
      (set_currentFlashcardIndex s
         (Z.rem (currentFlashcardIndex s + 1)
            (Z.of_nat (List.length (currentFlashcards s))))).
Proof.
  intros N. unfold nextFlashcard. js_unfold.
  destruct (currentFlashcards s) eqn:E; [contradiction|].
  rewrite E. reflexivity.
Qed.

Lemma previousFlashcard_unfold s :
  currentFlashcards s <> [] ->
  previousFlashcard s
  = displayFlashcard
      (set_currentFlashcardIndex s
         (Z.rem (currentFlashcardIndex s - 1
                 + Z.of_nat (List.length (currentFlashcards s)))
            (Z.of_nat (List.length (currentFlashcards s))))).
Proof.
  intros N. unfold previousFlashcard. js_unfold.
  destruct (currentFlashcards s) eqn:E; [contradiction|].
  rewrite E. reflexivity.
Qed.

(** X6.  On a non-empty card list with the index in range, nextFlashcard and
    previousFlashcard complete without an exception and leave the widget
    showing exactly the card at the new index, unflipped, with the counter
    at index + 1 out of the number of cards. *)
Theorem flashcard_widget_in_sync s :
  currentFlashcards s <> [] ->
  0 <= currentFlashcardIndex s < Z.of_nat (List.length (currentFlashcards s)) ->
  (fst (nextFlashcard s) = Normal tt
   /\ exists card,
        js_index (currentFlashcards (exec nextFlashcard s))
          (currentFlashcardIndex (exec nextFlashcard s)) = Some card
        /\ flashcard (exec nextFlashcard s)
           = mkFlashcardView false (front card) (back card)
               (currentFlashcardIndex (exec nextFlashcard s) + 1)
               (Z.of_nat (List.length (currentFlashcards s))))
  /\ (fst (previousFlashcard s) = Normal tt
      /\ exists card,
           js_index (currentFlashcards (exec previousFlashcard s))
             (currentFlashcardIndex (exec previousFlashcard s)) = Some card
           /\ flashcard (exec previousFlashcard s)
              = mkFlashcardView false (front card) (back card)
                  (currentFlashcardIndex (exec previousFlashcard s) + 1)
                  (Z.of_nat (List.length (currentFlashcards s)))).
Proof.
  intros N B.
  assert (P : 0 < Z.of_nat (List.length (currentFlashcards s))) by lia.
  split.
  - set (i := Z.rem (currentFlashcardIndex s + 1)
                (Z.of_nat (List.length (currentFlashcards s)))).
    assert (Bi : 0 <= i < Z.of_nat (List.length (currentFlashcards s)))
      by (apply Z.rem_bound_pos; lia).
    destruct (shown_after_move s i Bi) as (card & I & D).
    unfold exec. rewrite (nextFlashcard_unfold s N). fold i. rewrite D. split; [reflexivity|].
    exists card. split; [exact I | reflexivity].
  - set (i := Z.rem (currentFlashcardIndex s - 1
                     + Z.of_nat (List.length (currentFlashcards s)))
                (Z.of_nat (List.length (currentFlashcards s)))).
    assert (Bi : 0 <= i < Z.of_nat (List.length (currentFlashcards s)))
      by (apply Z.rem_bound_pos; lia).
    destruct (shown_after_move s i Bi) as (card & I & D).
    unfold exec. rewrite (previousFlashcard_unfold s N). fold i. rewrite D. split; [reflexivity|].
    exists card. split; [exact I | reflexivity].
Qed.

(** X7.  Paging forward and then back, or back and then forward, returns to
    the card the user started from. *)
Theorem flashcard_next_previous_round_trip s :
  currentFlashcards s <> [] ->
  0 <= currentFlashcardIndex s < Z.of_nat (List.length (currentFlashcards s)) ->
  currentFlashcardIndex (exec previousFlashcard (exec nextFlashcard s))
  = currentFlashcardIndex s
  /\ currentFlashcardIndex (exec nextFlashcard (exec previousFlashcard s))
     = currentFlashcardIndex s.
Proof.
  intros N B.
  set (n := Z.of_nat (List.length (currentFlashcards s))) in *.
  destruct (nextFlashcard_in_range s N B) as (C1 & I1 & B1).
  destruct (previousFlashcard_in_range s N B) as (C2 & I2 & B2).
  cbv zeta in *. fold n in I1, I2.
  split.
  - assert (N' : currentFlashcards (exec nextFlashcard s) <> []) by congruence.
    destruct (previousFlashcard_in_range _ N' B1) as (_ & I & _).
    cbv zeta in I. rewrite I, C1, I1. fold n.
    destruct (Z.eq_dec (currentFlashcardIndex s + 1) n) as [E|E].
    + rewrite E, Z_mod_same_full.
      rewrite Z.mod_small by lia. lia.
    + rewrite (Z.mod_small (currentFlashcardIndex s + 1)) by lia.
      replace (currentFlashcardIndex s + 1 - 1 + n)
        with (currentFlashcardIndex s + 1 * n) by lia.
      rewrite Z_mod_plus_full. apply Z.mod_small. lia.
  - assert (N' : currentFlashcards (exec previousFlashcard s) <> []) by congruence.
    destruct (nextFlashcard_in_range _ N' B2) as (_ & I & _).
    cbv zeta in I. rewrite I, C2, I2. fold n.
    destruct (Z.eq_dec (currentFlashcardIndex s) 0) as [E|E].
    + rewrite E. replace (0 - 1 + n) with (n - 1) by lia.
      rewrite (Z.mod_small (n - 1)) by lia.
      replace (n - 1 + 1) with n by lia. apply Z_mod_same_full.
    + replace (currentFlashcardIndex s - 1 + n)
        with (currentFlashcardIndex s - 1 + 1 * n) by lia.
      rewrite Z_mod_plus_full.
      rewrite (Z.mod_small (currentFlashcardIndex s - 1)) by lia.
      replace (currentFlashcardIndex s - 1 + 1) with (currentFlashcardIndex s) by lia.
      apply Z.mod_small. lia.
Qed.

Lemma nextFlashcards_index k :
  forall s,
    currentFlashcards s <> [] ->
    0 <= currentFlashcardIndex s < Z.of_nat (List.length (currentFlashcards s)) ->
    currentFlashcards (nextFlashcards k s) = currentFlashcards s
    /\ currentFlashcardIndex (nextFlashcards k s)
       = (currentFlashcardIndex s + Z.of_nat k)
           mod Z.of_nat (List.length (currentFlashcards s)).
Proof.
  induction k as [|k IH]; intros s N B.
  - cbn [nextFlashcards]. split; [reflexivity|].
    rewrite Z.add_0_r. symmetry. apply Z.mod_small. exact B.
  - cbn [nextFlashcards].
    destruct (nextFlashcard_in_range s N B) as (C1 & I1 & B1). cbv zeta in *.
    assert (N' : currentFlashcards (exec nextFlashcard s) <> []) by congruence.
    destruct (IH _ N' B1) as (C & I).
    split; [congruence|].
    rewrite I, C1, I1. rewrite Z.add_mod_idemp_l by lia.
    f_equal. lia.
Qed.

(** X8.  Pagination is cyclic: pressing next as many times as there are
    cards brings the index back to where it started, with the same cards. *)
Theorem flashcard_navigation_cycle s :
  currentFlashcards s <> [] ->
  0 <= currentFlashcardIndex s < Z.of_nat (List.length (currentFlashcards s)) ->
  currentFlashcardIndex (nextFlashcards (List.length (currentFlashcards s)) s)
  = currentFlashcardIndex s
  /\ currentFlashcards (nextFlashcards (List.length (currentFlashcards s)) s)
     = currentFlashcards s.
Proof.
  intros N B.
  destruct (nextFlashcards_index (List.length (currentFlashcards s)) s N B)
    as (C & I).
  split; [|exact C].
  rewrite I.
  replace (currentFlashcardIndex s + Z.of_nat (List.length (currentFlashcards s)))
    with (currentFlashcardIndex s + 1 * Z.of_nat (List.length (currentFlashcards s)))
    by lia.
  rewrite Z_mod_plus_full. apply Z.mod_small. exact B.
Qed.

End NavigationFacts.

(** ** Starting without a roadmap *)

Section StartFacts.
Variable backend : Backend.

(** X10.  startLearning never leaves a half-built session.  With a blank
    topic it does nothing at all, without any request.  When the backend
    reports failure or the request fails, the module variables are what they
    were, the start screen is shown and exactly one alert is raised, carrying
    the backend's error text, the fallback text when there is none, or the
    exception's message. *)
Theorem startLearning_without_roadmap s :
  (isEmpty (trim (topicInput s)) = true ->
   startLearning backend s = (Normal tt, s))
  /\ (isEmpty (trim (topicInput s)) = false ->
      let request :=
        ApiStartTopic (trim (topicInput s)) (personaSelect s) (difficultySelect s) in
      forall text,
        match backend (fetchLog s ++ [request])%list with
        | Json data =>
            success data = false
            /\ text = "Error: " ++ orElse (error data) "Failed to generate roadmap"
        | Threw e => text = "Error: " ++ e
        end ->
        startLearning backend s
        = (Normal tt,
           set_screen
             (set_alerts
                (set_fetchLog s (fetchLog s ++ [request])%list)
                (alerts s ++ [text])%list)
             StartScreen)).
Proof.
  split; intros E.
  - unfold startLearning. js_unfold. rewrite E. reflexivity.
  - intros request text H.
    unfold startLearning, showLoading, showScreen, alert, fetchJson. js_unfold.
    rewrite E. cbn. fold request.
    destruct (backend (fetchLog s ++ [request])%list) as [d|e].
    + destruct H as [F ->]. rewrite F. reflexivity.
    + subst text. reflexivity.
Qed.

(** X11.  A roadmap without steps is accepted as it is: the learning screen
    is shown with the cursor on 0 and totalSteps 0, nothing is refreshed (no
    guide, note or resource request; flashcards, minimap and transcript keep
    their old content), the cursor is outside the empty range, and the next
    nextStep shows the completion dialog without asking the backend. *)
Theorem startLearning_empty_roadmap s data :
  isEmpty (trim (topicInput s)) = false ->
  backend (fetchLog s
             ++ [ApiStartTopic (trim (topicInput s)) (personaSelect s)
                   (difficultySelect s)])%list
  = Json data ->
  success data = true ->
  d_steps data = [] ->
  let s' :=
    set_screen
      (set_currentStepIndex
         (set_totalSteps
            (set_roadmapData
               (set_fetchLog s
                  (fetchLog s
                     ++ [ApiStartTopic (trim (topicInput s)) (personaSelect s)
                           (difficultySelect s)])%list)
               (Some (mkRoadmap (d_topic data) [] (personaSelect s)
                        (difficultySelect s))))
            0)
         0)
      LearningScreen in
  startLearning backend s = (Normal tt, s')
  /\ cursorInRange s' = false
  /\ nextStep backend s' = (Normal tt, set_completionModal s' true).
Proof.
  intros E O Su St s'. split; [|split].
  - unfold startLearning, showLoading, showScreen, fetchJson,
      updateLearningScreen. js_unfold.
    rewrite E. cbn. rewrite O, Su. cbn. rewrite St. reflexivity.
  - reflexivity.
  - rewrite nextStep_run. reflexivity.
Qed.

(** X12.  The topic box is emptied by resetToStart, so a startLearning that
    follows it directly, before anything is typed, does nothing: the only
    request of the two handlers is the statistics reload. *)
Theorem start_right_after_reset s :
  exec (startLearning backend) (exec (resetToStart backend) s)
  = exec (resetToStart backend) s
  /\ fetchLog (exec (startLearning backend) (exec (resetToStart backend) s))
     = (fetchLog s ++ [ApiStats])%list.
Proof.
  assert (R : exec (resetToStart backend) s = snd (resetToStart backend s))
    by reflexivity.
  rewrite resetToStart_run in R. cbn [snd] in R. rewrite R.
  unfold exec, startLearning. js_unfold. cbn. split; reflexivity.
Qed.

End StartFacts.

(** ** The quiz round *)

Section QuizFacts.
Variable backend : Backend.

Lemma generateQuiz_run s :
  generateQuiz backend s
  = let s1 := set_fetchLog s (fetchLog s ++ [ApiGenerateQuiz])%list in
    match backend (fetchLog s ++ [ApiGenerateQuiz])%list with
    | Json data =>
        if success data then
          (Normal tt,
           set_quizContent (set_currentQuiz s1 (Some (questions data)))
             (Some (mkQuizView (questions data) [])))
        else
          (Normal tt,
           set_alerts s1
             (alerts s
                ++ [("Error generating quiz: "
                       ++ orElse (error data) "Unknown error")%string])%list)
    | Threw e =>
        (Normal tt, set_alerts s1 (alerts s ++ [("Error: " ++ e)%string])%list)
    end.
Proof.
  unfold generateQuiz, displayQuiz, alert, fetchJson. js_unfold. cbv zeta.
  destruct (backend _) as [d|e]; [|reflexivity].
  destruct (success d); reflexivity.
Qed.

Lemma submitQuiz_run s :
  submitQuiz backend s
  = let request :=
      ApiSubmitQuiz
        match quizContent s with
        | Some v => qv_selected v
        | None => []
        end (currentQuiz s) in
    let s1 := set_fetchLog s (fetchLog s ++ [request])%list in
    match backend (fetchLog s ++ [request])%list with
    | Json data =>
        if success data then
          (Normal tt,
           set_quizResultsModal s1
             (Some (mkQuizResults (score data) (total data) (percentage data)
                      (percentage data >=? 70))))
        else (Normal tt, s1)
    | Threw e =>
        (Normal tt, set_alerts s1 (alerts s ++ [("Error: " ++ e)%string])%list)
    end.
Proof.
  unfold submitQuiz, displayQuizResults, alert, fetchJson. js_unfold. cbv zeta.
  destruct (backend _) as [d|e]; [|reflexivity].
  destruct (success d); reflexivity.
Qed.

(** X13.  A failed quiz generation, reported by the backend or thrown by the
    request, leaves the stored quiz and the quiz panel as they were and
    raises exactly one alert. *)
Theorem generateQuiz_failure_keeps_quiz s :
  match backend (fetchLog s ++ [ApiGenerateQuiz])%list with
  | Json data => success data = false
  | Threw _ => True
  end ->
  let s' := exec (generateQuiz backend) s in
  currentQuiz s' = currentQuiz s
  /\ quizContent s' = quizContent s
  /\ List.length (alerts s') = S (List.length (alerts s))
  /\ fst (generateQuiz backend s) = Normal tt.
Proof.
  intros H s'. subst s'. unfold exec. rewrite generateQuiz_run. cbv zeta.
  destruct (backend _) as [d|e].
  - rewrite H. cbn. rewrite length_app. cbn. repeat split; lia.
  - cbn. rewrite length_app. cbn. repeat split; lia.
Qed.

(** X14.  Submitting never touches the stored quiz or the quiz panel and
    never throws.  On a successful answer the result dialog shows the
    backend's score, total and percentage, with the pass variant exactly when
    the percentage is at least 70. *)
Theorem submitQuiz_shows_backend_result s :
  let s' := exec (submitQuiz backend) s in
  currentQuiz s' = currentQuiz s
  /\ quizContent s' = quizContent s
  /\ fst (submitQuiz backend s) = Normal tt
  /\ forall data,
       backend (fetchLog s
                  ++ [ApiSubmitQuiz
                        match quizContent s with
                        | Some v => qv_selected v
                        | None => []
                        end (currentQuiz s)])%list
       = Json data ->
       success data = true ->
       exists pass,
         quizResultsModal s'
         = Some (mkQuizResults (score data) (total data) (percentage data) pass)
         /\ (pass = true <-> 70 <= percentage data).
Proof.
  intros s'. subst s'. unfold exec. rewrite submitQuiz_run. cbv zeta.
  destruct (backend _) as [d|e].
  - destruct (success d) eqn:Su; cbn; repeat split; try reflexivity.
    + intros data E _. injection E as <-.
      exists (percentage d >=? 70). split; [reflexivity|].
      rewrite Z.geb_leb. apply Z.leb_le.
    + intros data E Su'. injection E as <-. congruence.
  - cbn. repeat split. intros data E. discriminate.
Qed.

End QuizFacts.

(** ** Selecting quiz options *)

Section SelectionFacts.

Lemma addSelected_In q key sel x :
  In x (addSelected q key sel) <-> x = (q, key) \/ In x sel.
Proof.
  induction sel as [|e rest IH]; cbn [addSelected].
  - cbn. intuition congruence.
  - destruct (Nat.ltb q (fst e)); cbn [In].
    + intuition congruence.
    + rewrite IH. intuition congruence.
Qed.

Lemma deselect_In q sel x : In x (deselect q sel) <-> In x sel /\ fst x <> q.
Proof.
  unfold deselect. rewrite filter_In, negb_true_iff, Nat.eqb_neq. tauto.
Qed.

Lemma deselect_sorted q sel :
  StronglySorted (fun a b => (fst a < fst b)%nat) sel ->
  StronglySorted (fun a b => (fst a < fst b)%nat) (deselect q sel).
Proof.
  induction 1 as [|e rest S IH F]; cbn [deselect filter]; [constructor|].
  destruct (negb (Nat.eqb (fst e) q)); [|exact IH].
  constructor; [exact IH|].
  rewrite Forall_forall in *. intros x Hx.
  apply F. apply (deselect_In q rest x) in Hx. tauto.
Qed.

Lemma addSelected_sorted q key sel :
  StronglySorted (fun a b => (fst a < fst b)%nat) sel ->
  Forall (fun e => fst e <> q) sel ->
  StronglySorted (fun a b => (fst a < fst b)%nat) (addSelected q key sel).
Proof.
  induction 1 as [|e rest S IH F]; intros N; cbn [addSelected].
  - repeat constructor.
  - inversion N as [|? ? Ne Nrest]; subst.
    destruct (Nat.ltb_spec q (fst e)) as [L|G].
    + constructor; [constructor; assumption|].
      constructor; [exact L|].
      rewrite Forall_forall in *. intros x Hx. cbn. specialize (F x Hx). lia.
    + constructor; [apply IH, Nrest|].
      rewrite Forall_forall in *. intros x Hx.
      apply addSelected_In in Hx. destruct Hx as [->|Hx]; [cbn; lia | auto].
Qed.

Lemma select_keeps_ok qs q key sel :
  hasOption qs q key = true ->
  selectionOk qs sel ->
  selectionOk qs (addSelected q key (deselect q sel)).
Proof.
  intros H [S V]. split.
  - apply addSelected_sorted; [apply deselect_sorted, S|].
    rewrite Forall_forall. intros x Hx. apply deselect_In in Hx. tauto.
  - rewrite Forall_forall in *. intros x Hx.
    apply addSelected_In in Hx. destruct Hx as [->|Hx]; [exact H|].
    apply deselect_In in Hx. apply V. tauto.
Qed.

Lemma answerOf_added q key sel :
  Forall (fun e => fst e <> q) sel ->
  answerOf q (addSelected q key sel) = Some key.
Proof.
  unfold answerOf. induction 1 as [|e rest Ne F IH]; cbn [addSelected find].
  - cbn. rewrite Nat.eqb_refl. reflexivity.
  - destruct (Nat.ltb q (fst e)); cbn [find fst].
    + rewrite Nat.eqb_refl. reflexivity.
    + apply Nat.eqb_neq in Ne. rewrite Ne. exact IH.
Qed.

Lemma answerOf_added_other q key sel q' :
  q' <> q -> answerOf q' (addSelected q key sel) = answerOf q' sel.
Proof.
  intros N. unfold answerOf.
  assert (E : Nat.eqb q q' = false) by (apply Nat.eqb_neq; congruence).
  induction sel as [|e rest IH]; cbn [addSelected find fst].
  - rewrite E. reflexivity.
  - destruct (Nat.ltb q (fst e)); cbn [find fst].
    + rewrite E. reflexivity.
    + destruct (Nat.eqb (fst e) q'); [reflexivity | exact IH].
Qed.

Lemma answerOf_deselect_other q sel q' :
  q' <> q -> answerOf q' (deselect q sel) = answerOf q' sel.
Proof.
  intros N. unfold answerOf, deselect.
  induction sel as [|e rest IH]; [reflexivity|].
  cbn [filter find].
  destruct (Nat.eqb_spec (fst e) q) as [E|E]; cbn [negb find].
  - destruct (Nat.eqb_spec (fst e) q'); [congruence | exact IH].
  - destruct (Nat.eqb (fst e) q'); [reflexivity | exact IH].
Qed.

Lemma clickQuizOption_run q key s v :
  quizContent s = Some v ->
  hasOption (qv_questions v) q key = true ->
  exec (clickQuizOption q key) s
  = set_quizContent s
      (Some (mkQuizView (qv_questions v)
               (addSelected q key (deselect q (qv_selected v))))).
Proof.
  intros Q H. unfold exec, clickQuizOption, modify. cbn [snd].
  rewrite Q, H. reflexivity.
Qed.

(** X15.  Clicking an option that the panel shows makes it the answer of its
    question, replacing whatever was selected there, and leaves the answers
    of all other questions alone. *)
Theorem clickQuizOption_last_click_wins q key s v :
  quizContent s = Some v ->
  hasOption (qv_questions v) q key = true ->
  exists sel,
    quizContent (exec (clickQuizOption q key) s)
    = Some (mkQuizView (qv_questions v) sel)
    /\ answerOf q sel = Some key
    /\ (forall q', q' <> q -> answerOf q' sel = answerOf q' (qv_selected v)).
Proof.
  intros Q H. rewrite (clickQuizOption_run q key s v Q H).
  eexists. split; [reflexivity|]. split.
  - apply answerOf_added. rewrite Forall_forall.
    intros x Hx. apply deselect_In in Hx. tauto.
  - intros q' N.
    rewrite answerOf_added_other, answerOf_deselect_other by exact N.
    reflexivity.
Qed.

Lemma clickQuizOptions_panel clicks :
  forall s v,
    quizContent s = Some v ->
    selectionOk (qv_questions v) (qv_selected v) ->
    exists sel,
      clickQuizOptions clicks s
      = set_quizContent s (Some (mkQuizView (qv_questions v) sel))
      /\ selectionOk (qv_questions v) sel.
Proof.
  induction clicks as [|[q key] rest IH]; intros s v Q Ok.
  - exists (qv_selected v). split; [|exact Ok].
    cbn [clickQuizOptions]. destruct s, v. cbn in *. subst. reflexivity.
  - cbn [clickQuizOptions].
    destruct (hasOption (qv_questions v) q key) eqn:H.
    + rewrite (clickQuizOption_run q key s v Q H).
      set (v1 := mkQuizView _ _). set (s1 := set_quizContent s (Some v1)).
      destruct (IH s1 v1 eq_refl (select_keeps_ok _ q key _ H Ok)) as (sel & R & Ok').
      exists sel. split; [|exact Ok']. rewrite R. reflexivity.
    + assert (R : exec (clickQuizOption q key) s = s).
      { unfold exec, clickQuizOption, modify. cbn [snd]. rewrite Q, H. reflexivity. }
      rewrite R. apply IH; assumption.
Qed.

End SelectionFacts.

Section QuizRoundFacts.
Variable backend : Backend.

(** X16.  A quiz round echoes the generated questions: after a successful
    generateQuiz, any clicks on options and submitQuiz, the submit request
    carries exactly the question list the backend generated, together with
    answers that hold at most one option per question, each of them an option
    of that quiz; no other request is made in between. *)
Theorem quiz_round_trip s data clicks :
  backend (fetchLog s ++ [ApiGenerateQuiz])%list = Json data ->
  success data = true ->
  exists answers,
    fetchLog
      (exec (submitQuiz backend)
         (clickQuizOptions clicks (exec (generateQuiz backend) s)))
    = (fetchLog s
         ++ [ApiGenerateQuiz; ApiSubmitQuiz answers (Some (questions data))])%list
    /\ selectionOk (questions data) answers.
Proof.
  intros O Su.
  assert (G : exec (generateQuiz backend) s
              = set_quizContent
                  (set_currentQuiz
                     (set_fetchLog s (fetchLog s ++ [ApiGenerateQuiz])%list)
                     (Some (questions data)))
                  (Some (mkQuizView (questions data) []))).
  { unfold exec. rewrite generateQuiz_run. cbv zeta. rewrite O, Su. reflexivity. }
  rewrite G.
  set (s1 := set_quizContent _ _).
  assert (Ok0 : selectionOk (questions data) []).
  { split; constructor. }
  destruct (clickQuizOptions_panel clicks s1 (mkQuizView (questions data) [])
              eq_refl Ok0) as (sel & R & Ok).
  exists sel. split; [|exact Ok].
  rewrite R. unfold exec. rewrite submitQuiz_run. cbv zeta.
  subst s1. cbn [quizContent set_quizContent set_currentQuiz set_fetchLog
                   qv_selected qv_questions currentQuiz fetchLog].
  rewrite <- app_assoc. cbn [app].
  match goal with
  | |- context [match backend ?l with _ => _ end] =>
      destruct (backend l) as [d|e]; [destruct (success d)|]
  end; reflexivity.
Qed.

End QuizRoundFacts.

(** ** Landing on a step *)

Section LandingFacts.
Variable backend : Backend.

Lemma refresh_lands r s :
  sessionOn r s ->
  0 <= currentStepIndex s < Z.of_nat (List.length (rm_steps r)) ->
  exists step s',
    updateLearningScreen backend s = (Normal tt, s')
    /\ js_index (rm_steps r) (currentStepIndex s) = Some step
    /\ currentStepIndex s' = currentStepIndex s
    /\ currentFlashcards s' = extractFlashcards (details step)
    /\ currentFlashcardIndex s' = 0
    /\ chatMessages s' = []
    /\ roadmapMinimap s' = minimapItems (currentStepIndex s) 0 (rm_steps r)
    /\ fetchLog s'
       = (fetchLog s
            ++ [ApiGetGuide; ApiGetNote;
                ApiGetResources (rm_topic r) (title step)])%list
    /\ alerts s' = alerts s.
Proof.
  intros (R & T & M) B.
  destruct (js_index_in_range (rm_steps r) _ B) as (step & I).
  destruct (updateLearningScreen_run backend s r step R ltac:(lia) I)
    as (view & U).
  exists step. eexists. split; [exact U|].
  split; [exact I|]. repeat split.
Qed.

(** X17.  In a session set up on a roadmap with the cursor in range and a
    backend whose next-step indexes are in range, every cursor operation
    that moves the cursor lands on a step and refreshes the screen for it:
    the flashcards are those of the new step with the index on 0, the
    transcript is empty, the minimap is rebuilt around the new cursor, the
    last three requests are guide, note and the resources of the new step's
    title, and no alert is raised. *)
Theorem step_change_refreshes r s op :
  (forall h d,
      backend (h ++ [ApiNextStep])%list = Json d ->
      success d = true -> completed d = false ->
      0 <= d_currentStepIndex d < Z.of_nat (List.length (rm_steps r))) ->
  sessionOn r s ->
  cursorInRange s = true ->
  currentStepIndex (runOp backend op s) <> currentStepIndex s ->
  exists step before,
    js_index (rm_steps r) (currentStepIndex (runOp backend op s)) = Some step
    /\ currentFlashcards (runOp backend op s) = extractFlashcards (details step)
    /\ currentFlashcardIndex (runOp backend op s) = 0
    /\ chatMessages (runOp backend op s) = []
    /\ roadmapMinimap (runOp backend op s)
       = minimapItems (currentStepIndex (runOp backend op s)) 0 (rm_steps r)
    /\ fetchLog (runOp backend op s)
       = (before
            ++ [ApiGetGuide; ApiGetNote;
                ApiGetResources (rm_topic r) (title step)])%list
    /\ alerts (runOp backend op s) = alerts s.
Proof.
  intros HB S C.
  pose proof S as (R & _).
  apply (cursorInRange_spec r s R) in C.
  destruct op as [| |item]; unfold runOp, exec.
  - rewrite nextStep_run.
    destruct (currentStepIndex s >=? totalSteps s - 1);
      [intros N; contradiction N; reflexivity|].
    cbv zeta.
    destruct (backend (fetchLog s ++ [ApiNextStep])%list) as [d|e] eqn:E;
      [|intros N; contradiction N; reflexivity].
    destruct (success d) eqn:Es; [|intros N; contradiction N; reflexivity].
    destruct (completed d) eqn:Ec; [intros N; contradiction N; reflexivity|].
    specialize (HB _ _ E Es Ec). intros _.
    set (s1 := set_currentStepIndex _ _).
    assert (S1 : sessionOn r s1) by exact S.
    destruct (refresh_lands r s1 S1 HB)
      as (step & s' & U & I & A1 & A2 & A3 & A4 & A5 & A6 & A7).
    unfold tryCatch. rewrite U. cbn [snd].
    exists step. eexists. rewrite A1, A2, A3, A4, A5, A6, A7.
    repeat split; try reflexivity. exact I.
  - rewrite previousStep_run.
    destruct (currentStepIndex s =? 0) eqn:Z0;
      [intros N; contradiction N; reflexivity|].
    apply Z.eqb_neq in Z0. intros _.
    set (s1 := set_currentStepIndex _ _).
    assert (S1 : sessionOn r s1) by exact S.
    assert (B1 : 0 <= currentStepIndex s1 < Z.of_nat (List.length (rm_steps r)))
      by (cbn; lia).
    destruct (refresh_lands r s1 S1 B1)
      as (step & s' & U & I & A1 & A2 & A3 & A4 & A5 & A6 & A7).
    unfold detached. rewrite U. cbn [snd].
    exists step. eexists. rewrite A1, A2, A3, A4, A5, A6, A7.
    repeat split; try reflexivity. exact I.
  - rewrite minimapClick_run.
    destruct (nth_error (roadmapMinimap s) item) as [it|] eqn:N;
      [|intros N'; contradiction N'; reflexivity].
    intros _.
    destruct S as (_ & T & M).
    assert (Hi : (mi_index it < List.length (rm_steps r))%nat).
    { rewrite Forall_forall in M. apply M. eapply nth_error_In, N. }
    set (s1 := set_currentStepIndex _ _).
    assert (S1 : sessionOn r s1) by (repeat split; assumption).
    assert (B1 : 0 <= currentStepIndex s1 < Z.of_nat (List.length (rm_steps r)))
      by (cbn; lia).
    destruct (refresh_lands r s1 S1 B1)
      as (step & s' & U & I & A1 & A2 & A3 & A4 & A5 & A6 & A7).
    unfold detached. rewrite U. cbn [snd].
    exists step. eexists. rewrite A1, A2, A3, A4, A5, A6, A7.
    repeat split; try reflexivity. exact I.
Qed.

(** X18.  previousStep is local and guarded: whatever the state and the
    backend, it completes without an exception, moves the cursor down by
    exactly one unless the cursor is 0, in which case it changes nothing,
    and never changes the roadmap, its length or the alerts. *)
Theorem previousStep_decrements s :
  fst (previousStep backend s) = Normal tt
  /\ currentStepIndex (exec (previousStep backend) s)
     = (if currentStepIndex s =? 0 then 0 else currentStepIndex s - 1)
  /\ (currentStepIndex s = 0 -> previousStep backend s = (Normal tt, s))
  /\ roadmapData (exec (previousStep backend) s) = roadmapData s
  /\ totalSteps (exec (previousStep backend) s) = totalSteps s
  /\ alerts (exec (previousStep backend) s) = alerts s.
Proof.
  unfold exec. rewrite previousStep_run.
  destruct (currentStepIndex s =? 0) eqn:Z0.
  - apply Z.eqb_eq in Z0. cbn [fst snd]. repeat split; auto.
  - apply Z.eqb_neq in Z0.
    pose proof (updateLearningScreen_keeps_session backend
                  (set_currentStepIndex s (currentStepIndex s - 1))) as K.
    unfold sessionPart in K. unfold detached. cbn [fst snd].
    injection K as K1 K2 K3 _ _ _ _ _ _ K10.
    rewrite K1, K2, K3, K10. repeat split. intros; contradiction.
Qed.

Lemma refresh_returns_beyond s :
  currentStepIndex s >= totalSteps s ->
  updateLearningScreen backend s = (Normal tt, s).
Proof.
  intros B. unfold updateLearningScreen. js_unfold.
  destruct (roadmapData s); [|reflexivity].
  replace (currentStepIndex s >=? totalSteps s) with true
    by (symmetry; rewrite Z.geb_leb; apply Z.leb_le; lia).
  reflexivity.
Qed.

(** X19.  When the backend's next-step answer carries an index at or beyond
    totalSteps, nextStep adopts it and refreshes nothing: the only request
    is next-step, no alert is raised, and flashcards, minimap and transcript
    keep the content of the step left behind.  The next nextStep then shows
    the completion dialog without a request. *)
Theorem nextStep_index_beyond_roadmap s data :
  currentStepIndex s < totalSteps s - 1 ->
  backend (fetchLog s ++ [ApiNextStep])%list = Json data ->
  success data = true ->
  completed data = false ->
  totalSteps s <= d_currentStepIndex data ->
  let s' :=
    set_currentStepIndex
      (set_fetchLog s (fetchLog s ++ [ApiNextStep])%list)
      (d_currentStepIndex data) in
  nextStep backend s = (Normal tt, s')
  /\ nextStep backend s' = (Normal tt, set_completionModal s' true).
Proof.
  intros B O Su Co Far s'. split.
  - rewrite nextStep_run.
    replace (currentStepIndex s >=? totalSteps s - 1) with false
      by (symmetry; rewrite Z.geb_leb; apply Z.leb_gt; lia).
    cbv zeta. rewrite O, Su, Co. fold s'.
    unfold tryCatch. rewrite refresh_returns_beyond; [reflexivity|].
    subst s'. cbn. lia.
  - rewrite nextStep_run.
    replace (currentStepIndex s' >=? totalSteps s' - 1) with true;
      [reflexivity|].
    symmetry. rewrite Z.geb_leb. apply Z.leb_le. subst s'. cbn. lia.
Qed.

(** X20.  When the backend's next-step answer carries a negative index in a
    loaded session, nextStep adopts it as well; reading the step then fails
    and the failure is alerted, so the cursor is left negative with nothing
    refreshed. *)
Theorem nextStep_negative_index s r data :
  roadmapData s = Some r ->
  0 <= currentStepIndex s < totalSteps s - 1 ->
  backend (fetchLog s ++ [ApiNextStep])%list = Json data ->
  success data = true ->
  completed data = false ->
  d_currentStepIndex data < 0 ->
  nextStep backend s
  = (Normal tt,
     set_alerts
       (set_currentStepIndex
          (set_fetchLog s (fetchLog s ++ [ApiNextStep])%list)
          (d_currentStepIndex data))
       (alerts s ++ [("Error: " ++ undefinedProperty "number")%string])%list).
Proof.
  intros R B O Su Co Neg.
  rewrite nextStep_run.
  replace (currentStepIndex s >=? totalSteps s - 1) with false
    by (symmetry; rewrite Z.geb_leb; apply Z.leb_gt; lia).
  cbv zeta. rewrite O, Su, Co.
  unfold tryCatch, updateLearningScreen, alert. js_unfold.
  cbn [roadmapData set_currentStepIndex set_fetchLog currentStepIndex totalSteps].
  rewrite R.
  replace (d_currentStepIndex data >=? totalSteps s) with false
    by (symmetry; rewrite Z.geb_leb; apply Z.leb_gt; lia).
  unfold js_index.
  replace (d_currentStepIndex data <? 0) with true
    by (symmetry; apply Z.ltb_lt; lia).
  reflexivity.
Qed.

End LandingFacts.

(** ** The minimap *)

Section MinimapFacts.





End MinimapFacts.

(** ** Sending a chat message *)

Section SendFacts.
Variable backend : Backend.

(** X22.  sendChat never throws and never alerts, whatever the backend
    does.  An input that is blank once trimmed changes nothing and sends
    nothing; any other input empties the input box, sends exactly one chat
    request and adds exactly two messages to the transcript. *)
Theorem sendChat_effects s :
  fst (sendChat backend s) = Normal tt
  /\ alerts (exec (sendChat backend) s) = alerts s
  /\ (isEmpty (trim (chatInput s)) = true ->
      sendChat backend s = (Normal tt, s))
  /\ (isEmpty (trim (chatInput s)) = false ->
      chatInput (exec (sendChat backend) s) = ""
      /\ fetchLog (exec (sendChat backend) s)
         = (fetchLog s ++ [ApiChat (trim (chatInput s))])%list
      /\ List.length (chatMessages (exec (sendChat backend) s))
         = (2 + List.length (chatMessages s))%nat).
Proof.
  destruct (isEmpty (trim (chatInput s))) eqn:E.
  - rewrite (sendChat_blank backend s E). unfold exec.
    rewrite (sendChat_blank backend s E).
    repeat split; auto; discriminate.
  - destruct (sendChat_result backend s E) as (reply & R & _).
    unfold exec. rewrite R. cbn [fst snd].
    split; [reflexivity|]. split; [reflexivity|].
    split; [intros H; discriminate H|].
    intros _. split; [reflexivity|]. split; [reflexivity|].
    cbn [chatMessages set_chatMessages]. rewrite length_app. cbn. lia.
Qed.

End SendFacts.

(** ** Sidebars *)

Section SidebarFacts.

Lemma sidebarStep_exclusive e u :
  (leftOpen u && rightOpen u)%bool = false ->
  (leftOpen (sidebarStep e u) && rightOpen (sidebarStep e u))%bool = false.
Proof.
  intros H. destruct e as [| | |side x|side x]; cbn.
  - apply andb_false_r.
  - reflexivity.
  - reflexivity.
  - exact H.
  - destruct side; unfold handleGesture; cbn.
    + destruct (x - touchStartX u <? -50); cbn; auto.
    + destruct (x - touchStartX u >? 50); cbn; auto. apply andb_false_r.
Qed.

(** X23.  The two sidebars are never open together: from any state in which
    at most one of them is open, every sequence of toggle clicks, overlay
    clicks and touch events leaves at most one open.  Moreover only its own
    toggle button ever opens a sidebar. *)
Theorem sidebars_never_both_open events :
  forall u,
    (leftOpen u && rightOpen u)%bool = false ->
    (leftOpen (sidebarRun events u) && rightOpen (sidebarRun events u))%bool = false
    /\ (forall e,
           e <> ToggleLeftClick ->
           leftOpen (sidebarStep e u) = true -> leftOpen u = true)
    /\ (forall e,
           e <> ToggleRightClick ->
           rightOpen (sidebarStep e u) = true -> rightOpen u = true).
Proof.
  induction events as [|e rest IH]; intros u H.
  - split; [exact H|]. split; intros e N;
      destruct e as [| | |side x|side x]; cbn; try congruence;
      destruct side; unfold handleGesture; cbn;
      try (destruct (x - touchStartX u <? -50); cbn; congruence);
      try (destruct (x - touchStartX u >? 50); cbn; congruence).
  - cbn [sidebarRun].
    destruct (IH (sidebarStep e u) (sidebarStep_exclusive e u H)) as (A & _).
    split; [exact A|].
    destruct (IH u H) as (_ & B & C). split; assumption.
Qed.

(** X24.  A touch that starts at x0 and ends at x1 on the left sidebar
    closes it, and switches the overlay off, exactly when it moved left by
    more than 50; on the right sidebar exactly when it moved right by more
    than 50.  Otherwise, and for the other sidebar always, nothing changes. *)
Theorem swipe_closes_sidebar u x0 x1 :
  let l := sidebarRun [TouchStart LeftSidebar x0; TouchEnd LeftSidebar x1] u in
  let r := sidebarRun [TouchStart RightSidebar x0; TouchEnd RightSidebar x1] u in
  (rightOpen l = rightOpen u
   /\ (x1 - x0 < -50 -> leftOpen l = false /\ overlayActive l = false)
   /\ (-50 <= x1 - x0 ->
       leftOpen l = leftOpen u /\ overlayActive l = overlayActive u))
  /\ (leftOpen r = leftOpen u
      /\ (50 < x1 - x0 -> rightOpen r = false /\ overlayActive r = false)
      /\ (x1 - x0 <= 50 ->
          rightOpen r = rightOpen u /\ overlayActive r = overlayActive u)).
Proof.
  cbn [sidebarRun sidebarStep]. unfold handleGesture. cbn.
  split.
  - destruct (Z.ltb_spec (x1 - x0) (-50)); cbn; repeat split; auto; lia.
  - rewrite Z.gtb_ltb.
    destruct (Z.ltb_spec 50 (x1 - x0)); cbn; repeat split; auto; lia.
Qed.

End SidebarFacts.

(** ** Invariants of every reachable state *)

Section Preserves.
Variable P : State -> Prop.

Lemma preserves_ret {A} (a : A) : preserves P (ret a).
Proof. intros s H. exact H. Qed.

Lemma preserves_throw {A} e : preserves P (@throw A e).
Proof. intros s H. exact H. Qed.

Lemma preserves_get : preserves P get.
Proof. intros s H. exact H. Qed.

Lemma preserves_bind {A B} (m : Js A) (k : A -> Js B) :
  preserves P m -> (forall a, preserves P (k a)) -> preserves P (bind m k).
Proof.
  intros Hm Hk s H. unfold bind. specialize (Hm s H).
  destruct (m s) as [[a|e] s1]; cbn in *; [|assumption].
  apply Hk. assumption.
Qed.

Lemma preserves_tryCatch {A} (m : Js A) (h : string -> Js A) :
  preserves P m -> (forall e, preserves P (h e)) -> preserves P (tryCatch m h).
Proof.
  intros Hm Hh s H. unfold tryCatch. specialize (Hm s H).
  destruct (m s) as [[a|e] s1]; cbn in *; [assumption|].
  apply Hh. assumption.
Qed.

Lemma preserves_detached m : preserves P m -> preserves P (detached m).
Proof. intros H s. apply H. Qed.

Lemma preserves_of_keeps {T A} (proj : State -> T) (m : Js A) :
  (forall s s', proj s' = proj s -> P s -> P s') ->
  keeps proj m -> preserves P m.
Proof. intros R K s H. exact (R s _ (K s) H). Qed.

End Preserves.

Section ReachableFacts.
Variable backend : Backend.

Lemma lengthRecorded_respects s s' :
  roadmapPart s' = roadmapPart s -> lengthRecorded s -> lengthRecorded s'.
Proof.
  unfold roadmapPart, lengthRecorded. intros E H r R.
  injection E as E1 E2. rewrite E2. apply H. congruence.
Qed.

Lemma cardInRange_respects s s' :
  cardsPart s' = cardsPart s -> cardInRange s -> cardInRange s'.
Proof.
  unfold cardsPart, cardInRange. intros E H.
  injection E as E1 E2. rewrite E1, E2. exact H.
Qed.

Lemma panelShowsQuiz_respects s s' :
  quizPart s' = quizPart s -> panelShowsQuiz s -> panelShowsQuiz s'.
Proof.
  unfold quizPart, panelShowsQuiz. intros E H v Q.
  injection E as E1 E2. rewrite E1. apply H. congruence.
Qed.

Lemma clickQuizOption_keeps {T} (proj : State -> T) q key :
  (forall s v, proj (set_quizContent s v) = proj s) ->
  keeps proj (clickQuizOption q key).
Proof.
  intros H s. unfold clickQuizOption, modify. cbn [snd].
  destruct (quizContent s) as [v|]; [|reflexivity].
  destruct (hasOption (qv_questions v) q key); [apply H | reflexivity].
Qed.

Lemma flipFlashcard_keeps {T} (proj : State -> T) :
  (forall s v, proj (set_flashcard s v) = proj s) ->
  keeps proj flipFlashcard.
Proof. intros H s. apply H. Qed.

Lemma generateFlashcards_cardInRange : preserves cardInRange generateFlashcards.
Proof.
  intros s H.
  assert (U : generateFlashcards s = (Normal tt, s)
              \/ exists r step,
                   roadmapData s = Some r
                   /\ js_index (rm_steps r) (currentStepIndex s) = Some step).
  { unfold generateFlashcards. js_unfold. cbn -[displayFlashcard].
    destruct (roadmapData s) as [r|]; [|left; reflexivity].
    destruct (js_index (rm_steps r) (currentStepIndex s)) as [step|] eqn:I;
      [right; exists r, step; split; [reflexivity | exact I]
      | left; reflexivity]. }
  destruct U as [U|(r & step & R & I)]; [rewrite U; exact H|].
  destruct (generateFlashcards_run s r step R I) as (view & G).
  rewrite G. unfold cardInRange. cbn.
  intros N. destruct (extractFlashcards (details step)); [contradiction|].
  cbn [List.length]. lia.
Qed.

Ltac keeps_more :=
  unfold nextStep, previousStep, minimapClick, startLearning, resetToStart,
    sendChat, generateQuiz, submitQuiz, addChatMessage, displayQuiz,
    displayQuizResults, updateLearningScreen, updateRightSidebar,
    updateRoadmapMinimap, generateFlashcards, nextFlashcard,
    previousFlashcard, displayFlashcard, fetchRelatedResources, loadGuide,
    loadNote, loadStats, showCompletionModal, showScreen, showLoading, alert;
  repeat first [keeps_step | progress cbv zeta].

Ltac by_keeps P proj respects :=
  apply (preserves_of_keeps P proj); [exact respects | keeps_more].

Ltac preserves_cards refresh :=
  repeat lazymatch goal with
  | |- preserves _ (bind _ _) => apply preserves_bind; [|intros ?]
  | |- preserves _ (tryCatch _ _) => apply preserves_tryCatch; [|intros ?]
  | |- preserves _ (detached _) => apply preserves_detached
  | |- preserves _ (let _ := _ in _) => cbv zeta
  | |- preserves _ (match ?x with _ => _ end) => destruct x
  | |- preserves _ (updateLearningScreen _) => exact refresh
  | |- preserves _ generateFlashcards => exact generateFlashcards_cardInRange
  | |- preserves _ _ => by_keeps cardInRange cardsPart cardInRange_respects
  end.

Lemma updateLearningScreen_cardInRange :
  preserves cardInRange (updateLearningScreen backend).
Proof.
  unfold updateLearningScreen, updateRightSidebar.
  preserves_cards generateFlashcards_cardInRange.
Qed.

Lemma handle_cardInRange e : forall s, cardInRange s -> cardInRange (handle backend e s).
Proof.
  destruct e; cbn [handle]; unfold exec.
  - assert (H : preserves cardInRange (startLearning backend)).
    { unfold startLearning. preserves_cards updateLearningScreen_cardInRange. }
    intros s C. apply H. exact C.
  - assert (H : preserves cardInRange (nextStep backend)).
    { unfold nextStep. preserves_cards updateLearningScreen_cardInRange. }
    exact H.
  - assert (H : preserves cardInRange (previousStep backend)).
    { unfold previousStep. preserves_cards updateLearningScreen_cardInRange. }
    exact H.
  - assert (H : preserves cardInRange (minimapClick backend item)).
    { unfold minimapClick. preserves_cards updateLearningScreen_cardInRange. }
    exact H.
  - assert (H : preserves cardInRange (resetToStart backend))
      by by_keeps cardInRange cardsPart cardInRange_respects.
    exact H.
  - assert (H : preserves cardInRange (sendChat backend))
      by by_keeps cardInRange cardsPart cardInRange_respects.
    intros s C. apply H. exact C.
  - assert (H : preserves cardInRange (generateQuiz backend))
      by by_keeps cardInRange cardsPart cardInRange_respects.
    exact H.
  - assert (H : preserves cardInRange (submitQuiz backend))
      by by_keeps cardInRange cardsPart cardInRange_respects.
    exact H.
  - apply (preserves_of_keeps cardInRange cardsPart);
      [exact cardInRange_respects | apply clickQuizOption_keeps; reflexivity].
  - intros s C. destruct (currentFlashcards s) as [|c cs] eqn:E.
    + destruct (flashcard_navigation_empty s E) as [R _]. rewrite R. exact C.
    + assert (N : currentFlashcards s <> []) by congruence.
      destruct (nextFlashcard_in_range s N (C N)) as (_ & _ & B).
      intros _. exact B.
  - intros s C. destruct (currentFlashcards s) as [|c cs] eqn:E.
    + destruct (flashcard_navigation_empty s E) as [_ R]. rewrite R. exact C.
    + assert (N : currentFlashcards s <> []) by congruence.
      destruct (previousFlashcard_in_range s N (C N)) as (_ & _ & B).
      intros _. exact B.
  - apply (preserves_of_keeps cardInRange cardsPart);
      [exact cardInRange_respects | apply flipFlashcard_keeps; reflexivity].
Qed.

Lemma establish_then {A} (P : State -> Prop) (f1 f2 : State -> State) (k : Js A) :
  (forall s, P (f2 (f1 s))) ->
  preserves P k ->
  preserves P (bind (modify f1) (fun _ => bind (modify f2) (fun _ => k))).
Proof.
  intros E K s _. unfold bind, modify. cbn.
  apply K, E.
Qed.

Lemma startLearning_lengthRecorded :
  preserves lengthRecorded (startLearning backend).
Proof.
  unfold startLearning.
  apply preserves_bind; [apply preserves_get | intros s0]. cbv zeta.
  destruct (isEmpty (trim (topicInput s0))); [apply preserves_ret|].
  apply preserves_bind;
    [by_keeps lengthRecorded roadmapPart lengthRecorded_respects | intros _].
  apply preserves_tryCatch;
    [|intros e; by_keeps lengthRecorded roadmapPart lengthRecorded_respects].
  apply preserves_bind;
    [by_keeps lengthRecorded roadmapPart lengthRecorded_respects | intros data].
  destruct (success data);
    [|by_keeps lengthRecorded roadmapPart lengthRecorded_respects].
  apply establish_then.
  - intros s r R. cbn in R. injection R as <-. reflexivity.
  - by_keeps lengthRecorded roadmapPart lengthRecorded_respects.
Qed.

Lemma handle_lengthRecorded e :
  forall s, lengthRecorded s -> lengthRecorded (handle backend e s).
Proof.
  destruct e; cbn [handle]; unfold exec.
  - intros s C. apply startLearning_lengthRecorded. exact C.
  - assert (H : preserves lengthRecorded (nextStep backend))
      by by_keeps lengthRecorded roadmapPart lengthRecorded_respects.
    exact H.
  - assert (H : preserves lengthRecorded (previousStep backend))
      by by_keeps lengthRecorded roadmapPart lengthRecorded_respects.
    exact H.
  - assert (H : preserves lengthRecorded (minimapClick backend item))
      by by_keeps lengthRecorded roadmapPart lengthRecorded_respects.
    exact H.
  - intros s _. rewrite resetToStart_run. intros r R. discriminate R.
  - assert (H : preserves lengthRecorded (sendChat backend))
      by by_keeps lengthRecorded roadmapPart lengthRecorded_respects.
    intros s C. apply H. exact C.
  - assert (H : preserves lengthRecorded (generateQuiz backend))
      by by_keeps lengthRecorded roadmapPart lengthRecorded_respects.
    exact H.
  - assert (H : preserves lengthRecorded (submitQuiz backend))
      by by_keeps lengthRecorded roadmapPart lengthRecorded_respects.
    exact H.
  - apply (preserves_of_keeps lengthRecorded roadmapPart);
      [exact lengthRecorded_respects | apply clickQuizOption_keeps; reflexivity].
  - assert (H : preserves lengthRecorded nextFlashcard)
      by by_keeps lengthRecorded roadmapPart lengthRecorded_respects.
    exact H.
  - assert (H : preserves lengthRecorded previousFlashcard)
      by by_keeps lengthRecorded roadmapPart lengthRecorded_respects.
    exact H.
  - apply (preserves_of_keeps lengthRecorded roadmapPart);
      [exact lengthRecorded_respects | apply flipFlashcard_keeps; reflexivity].
Qed.

Lemma handle_panelShowsQuiz e :
  forall s, panelShowsQuiz s -> panelShowsQuiz (handle backend e s).
Proof.
  destruct e; cbn [handle]; unfold exec.
  - assert (H : preserves panelShowsQuiz (startLearning backend))
      by by_keeps panelShowsQuiz quizPart panelShowsQuiz_respects.
    intros s C. apply H. exact C.
  - assert (H : preserves panelShowsQuiz (nextStep backend))
      by by_keeps panelShowsQuiz quizPart panelShowsQuiz_respects.
    exact H.
  - assert (H : preserves panelShowsQuiz (previousStep backend))
      by by_keeps panelShowsQuiz quizPart panelShowsQuiz_respects.
    exact H.
  - assert (H : preserves panelShowsQuiz (minimapClick backend item))
      by by_keeps panelShowsQuiz quizPart panelShowsQuiz_respects.
    exact H.
  - intros s _. rewrite resetToStart_run. intros v Q. discriminate Q.
  - assert (H : preserves panelShowsQuiz (sendChat backend))
      by by_keeps panelShowsQuiz quizPart panelShowsQuiz_respects.
    intros s C. apply H. exact C.
  - intros s C. rewrite generateQuiz_run. cbv zeta.
    destruct (backend _) as [d|e]; [destruct (success d)|]; cbn [snd].
    + intros v Q. cbn in Q. injection Q as <-. cbn.
      split; [reflexivity|]. split; constructor.
    + exact C.
    + exact C.
  - assert (H : preserves panelShowsQuiz (submitQuiz backend))
      by by_keeps panelShowsQuiz quizPart panelShowsQuiz_respects.
    exact H.
  - intros s C. unfold clickQuizOption, modify. cbn [snd].
    destruct (quizContent s) as [v|] eqn:Q; [|exact C].
    destruct (hasOption (qv_questions v) q key) eqn:H; [|exact C].
    destruct (C v Q) as [A B].
    intros v' Q'. cbn in Q'. injection Q' as <-. cbn.
    split; [exact A|]. apply select_keeps_ok; assumption.
  - assert (H : preserves panelShowsQuiz nextFlashcard)
      by by_keeps panelShowsQuiz quizPart panelShowsQuiz_respects.
    exact H.
  - assert (H : preserves panelShowsQuiz previousFlashcard)
      by by_keeps panelShowsQuiz quizPart panelShowsQuiz_respects.
    exact H.
  - apply (preserves_of_keeps panelShowsQuiz quizPart);
      [exact panelShowsQuiz_respects | apply flipFlashcard_keeps; reflexivity].
Qed.

Lemma handleAll_consistent events :
  forall s,
    lengthRecorded s /\ cardInRange s /\ panelShowsQuiz s ->
    lengthRecorded (handleAll backend events s)
    /\ cardInRange (handleAll backend events s)
    /\ panelShowsQuiz (handleAll backend events s).
Proof.
  induction events as [|e rest IH]; intros s H; [exact H|].
  cbn [handleAll]. apply IH. destruct H as (A & B & C).
  split; [apply handle_lengthRecorded, A|].
  split; [apply handle_cardInRange, B | apply handle_panelShowsQuiz, C].
Qed.

Lemma initialState_consistent :
  lengthRecorded initialState /\ cardInRange initialState
  /\ panelShowsQuiz initialState.
Proof.
  split; [intros r R; discriminate R|].
  split; [intros N; contradiction N; reflexivity | intros v Q; discriminate Q].
Qed.

(** X25.  In every state reached from the freshly loaded script by any
    sequence of user events, whatever the backend answers: totalSteps is the
    number of steps of the loaded roadmap; the flashcard index designates one
    of the current cards whenever there are cards; and a shown quiz panel
    shows exactly the stored quiz, with at most one selected option per
    question, each an option of that quiz. *)
Theorem reachable_states_consistent events :
  lengthRecorded (handleAll backend events initialState)
  /\ cardInRange (handleAll backend events initialState)
  /\ panelShowsQuiz (handleAll backend events initialState).
Proof.
  apply handleAll_consistent, initialState_consistent.
Qed.

End ReachableFacts.

(** ** Handlers do not throw *)

Section NeverThrows.

Lemma neverThrows_ret {A} (a : A) : neverThrows (ret a).
Proof. intros s. exists a. reflexivity. Qed.

Lemma neverThrows_get : neverThrows get.
Proof. intros s. exists s. reflexivity. Qed.

Lemma neverThrows_modify f : neverThrows (modify f).
Proof. intros s. exists tt. reflexivity. Qed.

Lemma neverThrows_detached m : neverThrows (detached m).
Proof. intros s. exists tt. reflexivity. Qed.

Lemma neverThrows_bind {A B} (m : Js A) (k : A -> Js B) :
  neverThrows m -> (forall a, neverThrows (k a)) -> neverThrows (bind m k).
Proof.
  intros Hm Hk s. unfold bind. destruct (Hm s) as (a & E).
  destruct (m s) as [c s1]. cbn in E. subst c. apply Hk.
Qed.

Lemma neverThrows_tryCatch {A} (m : Js A) (h : string -> Js A) :
  (forall e, neverThrows (h e)) -> neverThrows (tryCatch m h).
Proof.
  intros Hh s. unfold tryCatch.
  destruct (m s) as [[a|e] s1]; [exists a; reflexivity | apply Hh].
Qed.

End NeverThrows.

Ltac never_throws :=
  repeat lazymatch goal with
  | |- neverThrows (bind _ _) => apply neverThrows_bind; [|intros ?]
  | |- neverThrows (tryCatch _ _) => apply neverThrows_tryCatch; intros ?
  | |- neverThrows (detached _) => apply neverThrows_detached
  | |- neverThrows (ret _) => apply neverThrows_ret
  | |- neverThrows get => apply neverThrows_get
  | |- neverThrows (modify _) => apply neverThrows_modify
  | |- neverThrows (let _ := _ in _) => cbv zeta
  | |- neverThrows (match ?x with _ => _ end) => destruct x
  end.

Section OutcomeFacts.
Variable backend : Backend.

Lemma handleOutcome_normal e s :
  cardInRange s -> exists a, handleOutcome backend e s = Normal a.
Proof.
  intros C. destruct e; cbn [handleOutcome].
  - assert (H : neverThrows (startLearning backend)).
    { unfold startLearning, showLoading, showScreen, alert. never_throws. }
    apply H.
  - assert (H : neverThrows (nextStep backend)).
    { unfold nextStep, showCompletionModal, alert. never_throws. }
    apply H.
  - assert (H : neverThrows (previousStep backend)).
    { unfold previousStep. never_throws. }
    apply H.
  - assert (H : neverThrows (minimapClick backend item)).
    { unfold minimapClick. never_throws. }
    apply H.
  - assert (H : neverThrows (resetToStart backend)).
    { unfold resetToStart, showScreen. never_throws. }
    apply H.
  - assert (H : neverThrows (sendChat backend)).
    { unfold sendChat, addChatMessage. never_throws. }
    apply H.
  - assert (H : neverThrows (generateQuiz backend)).
    { unfold generateQuiz, alert. never_throws. }
    apply H.
  - assert (H : neverThrows (submitQuiz backend)).
    { unfold submitQuiz, alert. never_throws. }
    apply H.
  - exists tt. reflexivity.
  - destruct (currentFlashcards s) as [|c cs] eqn:E.
    + destruct (flashcard_navigation_empty s E) as [R _]. rewrite R.
      exists tt. reflexivity.
    + assert (N : currentFlashcards s <> []) by congruence.
      rewrite (nextFlashcard_unfold s N).
      set (i := Z.rem _ _).
      assert (Bi : 0 <= i < Z.of_nat (List.length (currentFlashcards s))).
      { apply Z.rem_bound_pos; specialize (C N); lia. }
      destruct (shown_after_move s i Bi) as (card & _ & D).
      rewrite D. exists tt. reflexivity.
  - destruct (currentFlashcards s) as [|c cs] eqn:E.
    + destruct (flashcard_navigation_empty s E) as [_ R]. rewrite R.
      exists tt. reflexivity.
    + assert (N : currentFlashcards s <> []) by congruence.
      rewrite (previousFlashcard_unfold s N).
      set (i := Z.rem _ _).
      assert (Bi : 0 <= i < Z.of_nat (List.length (currentFlashcards s))).
      { apply Z.rem_bound_pos; specialize (C N); lia. }
      destruct (shown_after_move s i Bi) as (card & _ & D).
      rewrite D. exists tt. reflexivity.
  - exists tt. reflexivity.
Qed.

(** X26.  No handler ends with an uncaught exception: in every state reached
    from the freshly loaded script by any sequence of user events, whatever
    the backend answers, the handler of every further event completes
    normally. *)
Theorem handlers_never_throw events e :
  exists a,
    handleOutcome backend e (handleAll backend events initialState) = Normal a.
Proof.
  apply handleOutcome_normal.
  destruct (handleAll_consistent backend events initialState
              initialState_consistent) as (_ & C & _).
  exact C.
Qed.

End OutcomeFacts.

(** ** The further properties at concrete inputs *)

Lemma demoSession_on_demoRoadmap : sessionOn demoRoadmap demoSession.
Proof.
  split; [reflexivity|]. split; [reflexivity|].
  vm_compute. repeat constructor.
Defined.

Lemma extractFlashcards_faces_witness :
  In (mkFlashcard "Term" "Definition")
    (extractFlashcards
       ["Term: Definition"; "short"; "A moderately long descriptive sentence."])
  /\ includes colon "Term" = false
  /\ includes colon "Definition" = false
  /\ trim "Term" = "Term"
  /\ trim "Definition" = "Definition".
Proof.
  assert (I : In (mkFlashcard "Term" "Definition")
                (extractFlashcards
                   ["Term: Definition"; "short";
                    "A moderately long descriptive sentence."]))
    by (left; reflexivity).
  split; [exact I|].
  exact (extractFlashcards_faces _ _ I).
Defined.

Lemma flashcard_widget_in_sync_witness :
  currentFlashcards demoSession <> []
  /\ fst (nextFlashcard demoSession) = Normal tt
  /\ fst (previousFlashcard demoSession) = Normal tt.
Proof.
  assert (N : currentFlashcards demoSession <> []) by discriminate.
  assert (B : 0 <= currentFlashcardIndex demoSession
              < Z.of_nat (List.length (currentFlashcards demoSession)))
    by (change (0 <= 0 < 2); lia).
  split; [exact N|].
  destruct (flashcard_widget_in_sync demoSession N B) as ((A & _) & (A' & _)).
  split; [exact A | exact A'].
Defined.

Lemma flashcard_next_previous_round_trip_witness :
  currentFlashcards demoSession <> []
  /\ currentFlashcardIndex (exec previousFlashcard (exec nextFlashcard demoSession))
     = currentFlashcardIndex demoSession
  /\ currentFlashcardIndex (exec nextFlashcard (exec previousFlashcard demoSession))
     = currentFlashcardIndex demoSession.
Proof.
  assert (N : currentFlashcards demoSession <> []) by discriminate.
  assert (B : 0 <= currentFlashcardIndex demoSession
              < Z.of_nat (List.length (currentFlashcards demoSession)))
    by (change (0 <= 0 < 2); lia).
  split; [exact N|].
  exact (flashcard_next_previous_round_trip demoSession N B).
Defined.

Lemma flashcard_navigation_cycle_witness :
  currentFlashcards demoSession <> []
  /\ currentFlashcardIndex
       (nextFlashcards (List.length (currentFlashcards demoSession)) demoSession)
     = currentFlashcardIndex demoSession
  /\ currentFlashcards
       (nextFlashcards (List.length (currentFlashcards demoSession)) demoSession)
     = currentFlashcards demoSession.
Proof.
  assert (N : currentFlashcards demoSession <> []) by discriminate.
  assert (B : 0 <= currentFlashcardIndex demoSession
              < Z.of_nat (List.length (currentFlashcards demoSession)))
    by (change (0 <= 0 < 2); lia).
  split; [exact N|].
  exact (flashcard_navigation_cycle demoSession N B).
Defined.

Lemma startLearning_establishes_session_witness :
  let s := set_topicInput initialState "Rust" in
  isEmpty (trim (topicInput s)) = false
  /\ success demoData = true
  /\ sessionOn demoRoadmap (exec (startLearning (always (Json demoData))) s)
  /\ cursorInRange (exec (startLearning (always (Json demoData))) s) = true.
Proof.
  intros s.
  split; [reflexivity|]. split; [reflexivity|].
  apply (startLearning_establishes_session (always (Json demoData)) s demoData
           (mkStep 1 "Ownership"
              ["Term: Definition"; "short";
               "A moderately long descriptive sentence."])
           [mkStep 2 "Borrowing" ["Time: 10:30"]; mkStep 3 "Lifetimes" []]);
    reflexivity.
Defined.

Lemma startLearning_without_roadmap_witness :
  (isEmpty (trim (topicInput (set_topicInput initialState "   "))) = true
   /\ startLearning (always (Json demoData)) (set_topicInput initialState "   ")
      = (Normal tt, set_topicInput initialState "   "))
  /\ (isEmpty (trim (topicInput (set_topicInput initialState "Rust"))) = false
      /\ alerts (exec (startLearning (always (Json failedData)))
                   (set_topicInput initialState "Rust"))
         = ["Error: Session expired"]
      /\ screen (exec (startLearning (always (Threw "Failed to fetch")))
                   (set_topicInput initialState "Rust"))
         = StartScreen).
Proof.
  split.
  - split; [reflexivity|].
    apply (proj1 (startLearning_without_roadmap (always (Json demoData))
                    (set_topicInput initialState "   "))).
    reflexivity.
  - split; [reflexivity|]. split.
    + unfold exec.
      rewrite (proj2 (startLearning_without_roadmap (always (Json failedData))
                        (set_topicInput initialState "Rust"))
                 eq_refl "Error: Session expired" (conj eq_refl eq_refl)).
      reflexivity.
    + unfold exec.
      rewrite (proj2 (startLearning_without_roadmap
                        (always (Threw "Failed to fetch"))
                        (set_topicInput initialState "Rust"))
                 eq_refl "Error: Failed to fetch" eq_refl).
      reflexivity.
Defined.

Lemma startLearning_empty_roadmap_witness :
  let s := set_topicInput demoSession "Go" in
  isEmpty (trim (topicInput s)) = false
  /\ d_steps emptyData = []
  /\ currentFlashcards (exec (startLearning (always (Json emptyData))) s)
     = currentFlashcards demoSession
  /\ cursorInRange (exec (startLearning (always (Json emptyData))) s) = false.
Proof.
  intros s.
  split; [reflexivity|]. split; [reflexivity|].
  destruct (startLearning_empty_roadmap (always (Json emptyData)) s emptyData
              eq_refl eq_refl eq_refl eq_refl) as (R & _ & _).
  unfold exec. rewrite R. split; vm_compute; reflexivity.
Defined.

Lemma generateQuiz_failure_keeps_quiz_witness :
  currentQuiz (exec (generateQuiz (always (Json failedData))) demoQuizSession)
  = currentQuiz demoQuizSession
  /\ quizContent (exec (generateQuiz (always (Threw "Failed to fetch"))) demoQuizSession)
     = quizContent demoQuizSession.
Proof.
  split.
  - exact (proj1 (generateQuiz_failure_keeps_quiz (always (Json failedData))
                    demoQuizSession eq_refl)).
  - exact (proj1 (proj2 (generateQuiz_failure_keeps_quiz
                           (always (Threw "Failed to fetch"))
                           demoQuizSession Logic.I))).
Defined.

Lemma submitQuiz_shows_backend_result_witness :
  success demoData = true
  /\ exists pass,
       quizResultsModal (exec (submitQuiz (always (Json demoData))) demoQuizSession)
       = Some (mkQuizResults 2 3 67 pass)
       /\ (pass = true <-> 70 <= 67).
Proof.
  split; [reflexivity|].
  destruct (submitQuiz_shows_backend_result (always (Json demoData))
              demoQuizSession) as (_ & _ & _ & H).
  exact (H demoData eq_refl eq_refl).
Defined.

Lemma clickQuizOption_last_click_wins_witness :
  quizContent demoQuizSession = Some (mkQuizView [demoQuestion] [])
  /\ hasOption [demoQuestion] 0 "B" = true
  /\ exists sel,
       quizContent (exec (clickQuizOption 0 "B") demoQuizSession)
       = Some (mkQuizView [demoQuestion] sel)
       /\ answerOf 0 sel = Some "B".
Proof.
  split; [reflexivity|]. split; [reflexivity|].
  destruct (clickQuizOption_last_click_wins 0 "B" demoQuizSession
              (mkQuizView [demoQuestion] []) eq_refl eq_refl)
    as (sel & A & B & _).
  exists sel. split; [exact A | exact B].
Defined.

Lemma quiz_round_trip_witness :
  success demoData = true
  /\ exists answers,
       fetchLog
         (exec (submitQuiz (always (Json demoData)))
            (clickQuizOptions [(0%nat, "A"); (0%nat, "B")]
               (exec (generateQuiz (always (Json demoData))) demoSession)))
       = (fetchLog demoSession
            ++ [ApiGenerateQuiz; ApiSubmitQuiz answers (Some [demoQuestion])])%list
       /\ selectionOk [demoQuestion] answers.
Proof.
  split; [reflexivity|].
  exact (quiz_round_trip (always (Json demoData)) demoSession demoData
           [(0%nat, "A"); (0%nat, "B")] eq_refl eq_refl).
Defined.

Lemma step_change_refreshes_witness :
  sessionOn demoRoadmap demoSession
  /\ cursorInRange demoSession = true
  /\ currentStepIndex (runOp (always (Json demoData)) AdvanceStep demoSession)
     <> currentStepIndex demoSession
  /\ exists step before,
       js_index (rm_steps demoRoadmap)
         (currentStepIndex (runOp (always (Json demoData)) AdvanceStep demoSession))
       = Some step
       /\ currentFlashcards (runOp (always (Json demoData)) AdvanceStep demoSession)
          = extractFlashcards (details step)
       /\ currentFlashcardIndex (runOp (always (Json demoData)) AdvanceStep demoSession)
          = 0
       /\ chatMessages (runOp (always (Json demoData)) AdvanceStep demoSession) = []
       /\ roadmapMinimap (runOp (always (Json demoData)) AdvanceStep demoSession)
          = minimapItems
              (currentStepIndex (runOp (always (Json demoData)) AdvanceStep demoSession))
              0 (rm_steps demoRoadmap)
       /\ fetchLog (runOp (always (Json demoData)) AdvanceStep demoSession)
          = (before
               ++ [ApiGetGuide; ApiGetNote;
                   ApiGetResources (rm_topic demoRoadmap) (title step)])%list
       /\ alerts (runOp (always (Json demoData)) AdvanceStep demoSession)
          = alerts demoSession.
Proof.
  assert (N : currentStepIndex
                (runOp (always (Json demoData)) AdvanceStep demoSession)
              <> currentStepIndex demoSession) by discriminate.
  split; [exact demoSession_on_demoRoadmap|]. split; [reflexivity|].
  split; [exact N|].
  apply (step_change_refreshes (always (Json demoData)) demoRoadmap demoSession
           AdvanceStep).
  - intros h d E _ _. unfold always in E. injection E as <-.
    change (0 <= 1 < 3). lia.
  - exact demoSession_on_demoRoadmap.
  - reflexivity.
  - exact N.
Defined.

Lemma previousStep_decrements_witness :
  currentStepIndex demoSession = 0
  /\ previousStep (always (Json demoData)) demoSession = (Normal tt, demoSession)
  /\ currentStepIndex
       (exec (previousStep (always (Json demoData)))
          (runOp (always (Json demoData)) AdvanceStep demoSession))
     = 0.
Proof.
  split; [reflexivity|]. split.
  - destruct (previousStep_decrements (always (Json demoData)) demoSession)
      as (_ & _ & A & _).
    apply A. reflexivity.
  - destruct (previousStep_decrements (always (Json demoData))
                (runOp (always (Json demoData)) AdvanceStep demoSession))
      as (_ & A & _).
    rewrite A. reflexivity.
Defined.

Lemma nextStep_index_beyond_roadmap_witness :
  currentStepIndex demoSession < totalSteps demoSession - 1
  /\ totalSteps demoSession <= d_currentStepIndex farData
  /\ currentStepIndex (exec (nextStep (always (Json farData))) demoSession) = 7
  /\ chatMessages (exec (nextStep (always (Json farData))) demoSession)
     = chatMessages demoSession
  /\ alerts (exec (nextStep (always (Json farData))) demoSession) = [].
Proof.
  assert (B : currentStepIndex demoSession < totalSteps demoSession - 1)
    by reflexivity.
  assert (F : totalSteps demoSession <= d_currentStepIndex farData)
    by (change (3 <= 7); lia).
  split; [exact B|]. split; [exact F|].
  destruct (nextStep_index_beyond_roadmap (always (Json farData)) demoSession
              farData B eq_refl eq_refl eq_refl F) as (R & _).
  unfold exec. rewrite R. repeat split.
Defined.

Lemma nextStep_negative_index_witness :
  roadmapData demoSession = Some demoRoadmap
  /\ d_currentStepIndex negativeData < 0
  /\ currentStepIndex (exec (nextStep (always (Json negativeData))) demoSession)
     = -1
  /\ List.length (alerts (exec (nextStep (always (Json negativeData))) demoSession))
     = 1%nat.
Proof.
  assert (B : 0 <= currentStepIndex demoSession < totalSteps demoSession - 1)
    by (change (0 <= 0 < 3 - 1); lia).
  assert (Ng : d_currentStepIndex negativeData < 0) by reflexivity.
  split; [reflexivity|]. split; [exact Ng|].
  unfold exec.
  rewrite (nextStep_negative_index (always (Json negativeData)) demoSession
             demoRoadmap negativeData eq_refl B eq_refl eq_refl eq_refl Ng).
  split; reflexivity.
Defined.


Lemma sendChat_effects_witness :
  (isEmpty (trim (chatInput (set_chatInput demoSession "  "))) = true
   /\ sendChat (always (Json demoData)) (set_chatInput demoSession "  ")
      = (Normal tt, set_chatInput demoSession "  "))
  /\ (isEmpty (trim (chatInput (set_chatInput demoSession " hi "))) = false
      /\ chatInput (exec (sendChat (always (Json demoData)))
                      (set_chatInput demoSession " hi ")) = ""
      /\ fetchLog (exec (sendChat (always (Json demoData)))
                     (set_chatInput demoSession " hi "))
         = (fetchLog demoSession ++ [ApiChat "hi"])%list).
Proof.
  split.
  - split; [reflexivity|].
    destruct (sendChat_effects (always (Json demoData))
                (set_chatInput demoSession "  ")) as (_ & _ & A & _).
    apply A. reflexivity.
  - split; [reflexivity|].
    destruct (sendChat_effects (always (Json demoData))
                (set_chatInput demoSession " hi ")) as (_ & _ & _ & A).
    destruct (A eq_refl) as (A1 & A2 & _).
    split; [exact A1 | rewrite A2; vm_compute; reflexivity].
Defined.

Lemma sidebars_never_both_open_witness :
  (leftOpen demoSidebars && rightOpen demoSidebars)%bool = false
  /\ (leftOpen (sidebarRun [ToggleRightClick; ToggleLeftClick; OverlayClick;
                            ToggleRightClick] demoSidebars)
      && rightOpen (sidebarRun [ToggleRightClick; ToggleLeftClick; OverlayClick;
                                ToggleRightClick] demoSidebars))%bool = false.
Proof.
  split; [reflexivity|].
  exact (proj1 (sidebars_never_both_open
                  [ToggleRightClick; ToggleLeftClick; OverlayClick; ToggleRightClick]
                  demoSidebars eq_refl)).
Defined.

Lemma swipe_closes_sidebar_witness :
  200 - 300 < -50
  /\ leftOpen (sidebarRun [TouchStart LeftSidebar 300; TouchEnd LeftSidebar 200]
                 demoSidebars) = false
  /\ -50 <= 260 - 300
  /\ leftOpen (sidebarRun [TouchStart LeftSidebar 300; TouchEnd LeftSidebar 260]
                 demoSidebars) = leftOpen demoSidebars.
Proof.
  assert (A : 200 - 300 < -50) by reflexivity.
  assert (B : -50 <= 260 - 300) by (intro H; discriminate H).
  split; [exact A|]. split.
  - destruct (swipe_closes_sidebar demoSidebars 300 200) as ((_ & C & _) & _).
    exact (proj1 (C A)).
  - split; [exact B|].
    destruct (swipe_closes_sidebar demoSidebars 300 260) as ((_ & _ & C) & _).
    exact (proj1 (C B)).
Defined.
